(** * Report generation of qtf_mcp/research.py

    A shallow embedding of the report pipeline of [src/qtf_mcp/research.py]
    ([build_stock_data] and the four section builders it calls) and the
    properties of it that the specification states.

    - numpy float64 values are IEEE binary64 numbers, modelled by the
      standard library's [spec_float] with precision 53 and maximal
      exponent 1024; every arithmetic operation rounds as the hardware does.
    - The section builders print to one shared text stream and read one
      shared bundle: they are written in a state-and-exception monad whose
      state holds both objects.
    - Third-party code (numpy reductions, the indicator libraries, the symbol
      lookup, the conversion of a timestamp to a local date) is a record of
      functions, [externals]. *)

From Stdlib Require Import ZArith List String Ascii Bool Lia.
From Stdlib Require Import SpecFloat DecimalString.
From Stdlib Require Import Sorted.
Import ListNotations.
Local Open Scope Z_scope.

(** ** binary64 arithmetic *)

Definition float : Type := spec_float.

Module F64.

Definition prec : Z := 53.
Definition emax : Z := 1024.

(** The float nearest to an integer (Python int operands are converted so). *)
Definition of_Z (z : Z) : float := binary_normalize prec emax z 0 false.
(** The float nearest to [m * 2^e]. *)
Definition of_scaled (m e : Z) : float := binary_normalize prec emax m e false.

Definition mul : float -> float -> float := SFmul prec emax.
Definition div : float -> float -> float := SFdiv prec emax.
Definition add : float -> float -> float := SFadd prec emax.
Definition sub : float -> float -> float := SFsub prec emax.

Definition nan : float := S754_nan.

(** Sign bit of a float that is not a NaN. *)
Definition signbit (x : float) : bool :=
  match x with
  | S754_zero s | S754_infinity s | S754_finite s _ _ => s
  | S754_nan => false
  end.

Definition is_finite (x : float) : bool :=
  match x with
  | S754_zero _ | S754_finite _ _ _ => true
  | _ => false
  end.

(** The exact value of a finite float as a fraction [(numerator, denominator)]. *)
Definition to_fraction (x : float) : option (Z * Z) :=
  match x with
  | S754_zero _ => Some (0, 1)
  | S754_finite s m e =>
      let n := if s then Z.neg m else Z.pos m in
      Some (if 0 <=? e then (n * 2 ^ e, 1) else (n, 2 ^ (- e)))
  | _ => None
  end.

End F64.


(** ** Python's fixed-point and percent presentation types *)

Module Fmt.

Local Open Scope string_scope.

(** [Fixed d] is the format spec [.df], [Percent d] is [.d%]. *)
Inductive fmt := Fixed (d : nat) | Percent (d : nat).

Definition round_half_even (num den : Z) : Z :=
  let q := num / den in
  let r := num mod den in
  if (2 * r <? den)%Z then q
  else if (den <? 2 * r)%Z then q + 1
  else if Z.even q then q else q + 1.

(** [|m * 2^e| * 10^d] rounded to an integer, ties to even: the digits
    that a correctly rounded conversion prints. *)
Definition scaled (d : nat) (m : positive) (e : Z) : Z :=
  if (0 <=? e)%Z then Z.pos m * 2 ^ e * 10 ^ Z.of_nat d
  else round_half_even (Z.pos m * 10 ^ Z.of_nat d) (2 ^ (- e)).

Definition digit (n : Z) : ascii := ascii_of_nat (48 + Z.to_nat (n mod 10)).

Definition string_of_Z (n : Z) : string :=
  match n with
  | Z.neg p => "-" ++ NilZero.string_of_uint (Pos.to_uint p)
  | _ => NilZero.string_of_uint (N.to_uint (Z.to_N n))
  end.

(** The [d] lowest decimal digits of [n], zero padded. *)
Fixpoint pad_digits (d : nat) (n : Z) : string :=
  match d with
  | O => EmptyString
  | S d' => pad_digits d' (n / 10) ++ String (digit n) EmptyString
  end.

Definition sign_text (s : bool) : string := if s then "-" else EmptyString.

(** Text of the non-negative amount [n / 10^d] with [d] decimals. *)
Definition fixed_text (d : nat) (n : Z) : string :=
  string_of_Z (n / 10 ^ Z.of_nat d) ++ "." ++ pad_digits d n.

Definition format_f (d : nat) (x : float) : string :=
  match x with
  | S754_nan => "nan"
  | S754_infinity s => sign_text s ++ "inf"
  | S754_zero s => sign_text s ++ fixed_text d 0
  | S754_finite s m e => sign_text s ++ fixed_text d (scaled d m e)
  end.

(** [format(x, spec)]: the percent type multiplies by 100 in binary64
    before it prints in fixed point. *)
Definition format (f : fmt) (x : float) : string :=
  match f with
  | Fixed d => format_f d x
  | Percent d => format_f d (F64.mul x (F64.of_Z 100)) ++ "%"
  end.

End Fmt.

Export Fmt(fmt(..)).

(** ** Python sequences and exceptions *)

Inductive exn := IndexError | ValueError.

Inductive result (A : Type) :=
| Ok (a : A)
| Raise (e : exn).
Arguments Ok {A} a.
Arguments Raise {A} e.

Module Py.

Definition len {A} (l : list A) : Z := Z.of_nat (List.length l).

(** [l[i]] for an integer [i]: a negative index counts from the end, and an
    index outside the sequence raises IndexError (lists and 1-d arrays). *)
Definition getitem {A} (l : list A) (i : Z) : result A :=
  let j := if i <? 0 then i + len l else i in
  if (0 <=? j) && (j <? len l) then
    match nth_error l (Z.to_nat j) with
    | Some x => Ok x
    | None => Raise IndexError
    end
  else Raise IndexError.

(** [l[start:]]: a negative start counts from the end, and the bounds are
    clamped to the sequence instead of raising. *)
Definition slice_from {A} (l : list A) (start : Z) : list A :=
  let n := len l in
  let s := if start <? 0 then Z.max (start + n) 0 else Z.min start n in
  skipn (Z.to_nat s) l.

(** [range(start, stop, step)] for a non-zero step. *)
Definition range (start stop step : Z) : list Z :=
  let count :=
    if 0 <? step then (stop - start + step - 1) / step
    else if step <? 0 then (start - stop - step - 1) / (- step)
    else 0 in
  map (fun k => start + Z.of_nat k * step) (seq 0 (Z.to_nat count)).

(** [k in s] on strings. *)
Fixpoint contains (k s : string) : bool :=
  String.prefix k s ||
  match s with
  | EmptyString => false
  | String _ r => contains k r
  end.

(** [s * n] on strings. *)
Fixpoint repeat_string (s : string) (n : nat) : string :=
  match n with
  | O => EmptyString
  | S n' => String.append s (repeat_string s n')
  end.

(** A list comprehension whose element expression can raise. *)
Fixpoint map_result {A B} (f : A -> result B) (l : list A) : result (list B) :=
  match l with
  | [] => Ok []
  | x :: r =>
      match f x with
      | Raise e => Raise e
      | Ok y =>
          match map_result f r with
          | Raise e => Raise e
          | Ok ys => Ok (y :: ys)
          end
      end
  end.

End Py.

(** ** Dates *)

Record datetime := { year : Z; month : Z; day : Z }.

(** The proleptic Gregorian date of a day number counted from 1970-01-01. *)
Definition civil_from_days (z : Z) : datetime :=
  let z := z + 719468 in
  let era := z / 146097 in
  let doe := z - era * 146097 in
  let yoe := (doe - doe / 1460 + doe / 36524 - doe / 146096) / 365 in
  let doy := doe - (365 * yoe + yoe / 4 - yoe / 100) in
  let mp := (5 * doy + 2) / 153 in
  let d := doy - (153 * mp + 2) / 5 + 1 in
  let m := if mp <? 10 then mp + 3 else mp - 9 in
  {| year := yoe + era * 400 + (if m <=? 2 then 1 else 0); month := m; day := d |}.

(** [strftime("%Y-%m-%d")]. *)
Definition strftime_ymd (d : datetime) : string :=
  (Fmt.string_of_Z (year d) ++ "-" ++ Fmt.pad_digits 2 (month d) ++ "-"
   ++ Fmt.pad_digits 2 (day d))%string.

(** [strftime("%Y年度")]. *)
Definition strftime_year (d : datetime) : string :=
  (Fmt.string_of_Z (year d) ++ "年度")%string.

(** ** The input bundle *)

(** [fin] of [fin, _ = data["_DS_FINANCE"]]: the periodic reports. *)
Record finance := {
  fin_DATE : list Z;
  fin_MR : list float;
  fin_NP : list float;
  fin_EPS : list float;
  fin_NAVPS : list float;
  fin_ROE : list float
}.

(** [raw_data]: the keys the report reads, each holding its array.
    [DATE] entries are int64 counts of nanoseconds since the epoch. The
    second component of [_DS_FINANCE] is never read. The record holds every
    key: a dictionary that lacks one is not an input of this model. *)
Record bundle := {
  DATE : list Z;
  CLOSE : list float;
  CLOSE2 : list float;
  HIGH : list float;
  LOW : list float;
  VOLUME : list float;
  TCAP : list float;
  EPS : list float;
  EPSU : list float;
  ROE : list float;
  SECTOR : list string;
  DS_FINANCE : finance * unit
}.

(** ** Third-party collaborators *)

Record externals := {
  (** [symbols.symbol_with_name] *)
  symbol_with_name : list string -> list (string * string);
  (** [datetime.datetime.fromtimestamp] in the local time zone of the
      process, on the finite timestamps the report passes to it; only the
      calendar date of the result is read *)
  fromtimestamp : float -> datetime;
  (** [ndarray.mean], [.sum], [.max], [.min] on a non-empty array *)
  np_mean : list float -> float;
  np_sum : list float -> float;
  np_max : list float -> float;
  np_min : list float -> float;
  (** [qtf.indicators.KDJ], [qtf.indicators.MACD] *)
  KDJ : list float -> list float -> list float -> Z -> Z
        -> list float * list float * list float;
  MACD : list float -> Z -> Z -> Z -> list float * list float;
  (** [talib.RSI(close, timeperiod)], [talib.BBANDS(close, matype=T3)] *)
  talib_RSI : list float -> Z -> list float;
  talib_BBANDS_T3 : list float -> list float * list float * list float
}.

(** ** The text stream *)

(** One printed line is the sequence of its literal and formatted parts, in
    order: [Text] a string, [Int] an integer replacement field, [Num] a float
    replacement field with its format spec. *)
Inductive piece :=
| Text (s : string)
| Int (n : Z)
| Num (f : fmt) (x : float).

Definition line := list piece.

Definition render_piece (p : piece) : string :=
  match p with
  | Text s => s
  | Int n => Fmt.string_of_Z n
  | Num f x => Fmt.format f x
  end.

Definition render_line (l : line) : string :=
  String.concat EmptyString (map render_piece l).

Definition newline : string := String (ascii_of_nat 10) EmptyString.

(** The text of the stream: every printed line followed by a newline. *)
Definition render (doc : list line) : string :=
  String.concat EmptyString (map (fun l => String.append (render_line l) newline) doc).

(** [print("", file=fp)] *)
Definition blank : line := [Text EmptyString].

(** [sep.join(parts)] where every part is itself a sequence of pieces. *)
Fixpoint join_pieces (sep : string) (parts : list line) : line :=
  match parts with
  | [] => []
  | [p] => p
  | p :: rest => p ++ Text sep :: join_pieces sep rest
  end.

(** ** The monad of the section builders

    The state is the pair of objects every builder receives: the stream
    [fp] (the lines printed so far) and the dictionary [data]. *)

Record state := { fp : list line; data : bundle }.

Definition M (A : Type) : Type := state -> result A * state.

Definition ret {A} (a : A) : M A := fun s => (Ok a, s).

Definition bind {A B} (m : M A) (f : A -> M B) : M B :=
  fun s =>
    match m s with
    | (Ok a, s') => f a s'
    | (Raise e, s') => (Raise e, s')
    end.

(** An expression that can raise and touches neither object. *)
Definition lift {A} (r : result A) : M A := fun s => (r, s).

(** [data[key]] for a key the bundle holds *)
Definition read {A} (key : bundle -> A) : M A := fun s => (Ok (key (data s)), s).

(** [fp.getvalue()] *)
Definition getvalue : M string := fun s => (Ok (render (fp s)), s).

(** [print(..., file=fp)] *)
Definition print (l : line) : M unit :=
  fun s => (Ok tt, {| fp := fp s ++ [l]; data := data s |}).

Declare Scope monad_scope.
Delimit Scope monad_scope with monad.
Notation "x <- m ;; k" := (bind m (fun x => k))
  (at level 61, m at next level, right associativity) : monad_scope.
Notation "m ;; k" := (bind m (fun _ => k))
  (at level 61, right associativity) : monad_scope.
Local Open Scope monad_scope.

(** [for x in xs: body] *)
Fixpoint for_each {A} (xs : list A) (body : A -> M unit) : M unit :=
  match xs with
  | [] => ret tt
  | x :: rest => body x ;; for_each rest body
  end.

(** A [for] loop that updates local variables [acc]. *)
Fixpoint fold_M {A B} (body : B -> A -> M B) (xs : list A) (acc : B) : M B :=
  match xs with
  | [] => ret acc
  | x :: rest => acc' <- body acc x ;; fold_M body rest acc'
  end.

(** ** research.py *)

Definition keywords : list string :=
  ["MSCI"; "标普"; "同花顺"; "融资融券"; "沪股通"]%string.

Definition filter_sector (sectors : list string) : list string :=
  filter (fun s => negb (existsb (fun k => Py.contains k s) keywords)) sectors.

(** The int results 1 and 0 are the floats they become in the products
    that use them. *)
Definition est_fin_ratio (last_fin_date : datetime) : float :=
  if month last_fin_date =? 12 then F64.of_Z 1
  else if month last_fin_date =? 9 then F64.of_scaled 3 (-2)
  else if month last_fin_date =? 6 then F64.of_scaled 1 (-1)
  else if month last_fin_date =? 3 then F64.of_scaled 1 (-2)
  else F64.of_Z 0.

(** A collected fiscal-year row [[label, v1, ..., v5]]. *)
Record fin_row := { row_label : string; row_values : list float }.

(** [len(r)] and [r[i]] for an index [i >= 1] of such a row. *)
Definition row_len (r : fin_row) : Z := 1 + Py.len (row_values r).
Definition row_get (r : fin_row) (i : Z) : result float :=
  Py.getitem (row_values r) (i - 1).

Definition fields : list (string * (finance -> list float) * Z) :=
  [("主营收入(亿元)"%string, fin_MR, 10000);
   ("净利润(亿元)"%string, fin_NP, 10000);
   ("每股收益"%string, fin_EPS, 1);
   ("每股净资产"%string, fin_NAVPS, 1);
   ("净资产收益率"%string, fin_ROE, 1)].

Definition max_years : Z := 5.

Definition canonical_periods : list Z := [5; 20; 60; 120; 240].

(** [d / 1e9] for an entry [d] of a [DATE] array, an int64 count of
    nanoseconds: numpy converts it to the nearest float64 and divides in
    binary64, so the quotient is rounded twice. *)
Definition div_1e9 (d : Z) : float := F64.div (F64.of_Z d) (F64.of_Z 1000000000).

Section Report.

Variable E : externals.

(** [a.max()] and [a.min()] raise ValueError on an empty array. *)
Definition amax (a : list float) : result float :=
  match a with [] => Raise ValueError | _ => Ok (np_max E a) end.
Definition amin (a : list float) : result float :=
  match a with [] => Raise ValueError | _ => Ok (np_min E a) end.

Definition build_basic_data (symbol : string) : M unit :=
  print [Text "# 基本数据"] ;;
  print blank ;;
  sn <- lift (Py.getitem (symbol_with_name E [symbol]) 0) ;;
  sectors <- read SECTOR ;;
  let sector := String.concat " " (filter_sector sectors) in
  dates <- read DATE ;;
  t <- lift (Py.getitem dates (-1)) ;;
  let data_date := fromtimestamp E (div_1e9 t) in
  fin <- read (fun d => fst (DS_FINANCE d)) ;;
  tf <- lift (Py.getitem (fin_DATE fin) (-1)) ;;
  let last_fin_date := fromtimestamp E (div_1e9 tf) in
  let fin_ratio := est_fin_ratio last_fin_date in
  print [Text "- 股票代码: "; Text (fst sn)] ;;
  print [Text "- 股票名称: "; Text (snd sn)] ;;
  print [Text "- 数据日期: "; Text (strftime_ymd data_date)] ;;
  print [Text "- 行业概念: "; Text sector] ;;
  close2 <- read CLOSE2 ;;
  c <- lift (Py.getitem close2 (-1)) ;;
  eps <- read EPS ;;
  e <- lift (Py.getitem eps (-1)) ;;
  print [Text "- 市盈率: "; Num (Fixed 2) (F64.mul (F64.div c e) fin_ratio)] ;;
  close2 <- read CLOSE2 ;;
  c <- lift (Py.getitem close2 (-1)) ;;
  epsu <- read EPSU ;;
  u <- lift (Py.getitem epsu (-1)) ;;
  print [Text "- 市净率: "; Num (Fixed 2) (F64.mul (F64.div c u) fin_ratio)] ;;
  roe <- read ROE ;;
  r <- lift (Py.getitem roe (-1)) ;;
  print [Text "- 净资产收益率: "; Num (Fixed 2) r] ;;
  print blank.

Definition one : float := F64.of_Z 1.
Definition million : float := F64.of_Z 1000000.

Definition build_trading_data (symbol : string) : M unit :=
  close <- read CLOSE ;;
  tcap <- read TCAP ;;
  volume <- read VOLUME ;;
  high <- read HIGH ;;
  low <- read LOW ;;
  let periods := filter (fun n => n <=? Py.len close) canonical_periods in
  print [Text "# 交易数据"] ;;
  print blank ;;
  print [Text "## 价格"] ;;
  c <- lift (Py.getitem close (-1)) ;;
  h <- lift (Py.getitem high (-1)) ;;
  l <- lift (Py.getitem low (-1)) ;;
  print [Text "- 当日: "; Num (Fixed 3) c; Text " 最高: "; Num (Fixed 3) h;
         Text " 最低: "; Num (Fixed 3) l] ;;
  for_each periods (fun p =>
    let avg := np_mean E (Py.slice_from close (- p)) in
    mx <- lift (amax (Py.slice_from high (- p))) ;;
    mn <- lift (amin (Py.slice_from low (- p))) ;;
    print [Text "- "; Int p; Text "日均价: "; Num (Fixed 3) avg;
           Text " 最高: "; Num (Fixed 3) mx; Text " 最低: "; Num (Fixed 3) mn]) ;;
  print blank ;;
  print [Text "## 振幅"] ;;
  h <- lift (Py.getitem high (-1)) ;;
  l <- lift (Py.getitem low (-2)) ;;
  print [Text "- 当日: "; Num (Percent 2) (F64.sub (F64.div h l) one)] ;;
  for_each periods (fun p =>
    mx <- lift (amax (Py.slice_from high (- p))) ;;
    mn <- lift (amin (Py.slice_from low (- p))) ;;
    print [Text "- "; Int p; Text "日振幅: ";
           Num (Percent 2) (F64.sub (F64.div mx mn) one)]) ;;
  print blank ;;
  print [Text "## 涨跌幅"] ;;
  c <- lift (Py.getitem close (-1)) ;;
  c' <- lift (Py.getitem close (-2)) ;;
  print [Text "- 当日: "; Num (Percent 2) (F64.sub (F64.div c c') one)] ;;
  for_each periods (fun p =>
    c <- lift (Py.getitem close (-1)) ;;
    c' <- lift (Py.getitem close (- p)) ;;
    print [Text "- "; Int p; Text "日累计: ";
           Num (Fixed 2) (F64.mul (F64.sub (F64.div c c') one) (F64.of_Z 100));
           Text "%"]) ;;
  print blank ;;
  print [Text "## 成交量(万手)"] ;;
  v <- lift (Py.getitem volume (-1)) ;;
  print [Text "- 当日: "; Num (Fixed 2) (F64.div v million)] ;;
  for_each periods (fun p =>
    print [Text "- "; Int p; Text "日均量(万手): ";
           Num (Fixed 2) (F64.div (np_mean E (Py.slice_from volume (- p))) million)]) ;;
  print blank ;;
  print [Text "## 换手率"] ;;
  v <- lift (Py.getitem volume (-1)) ;;
  t <- lift (Py.getitem tcap (-1)) ;;
  print [Text "- 当日: "; Num (Percent 2) (F64.div v t)] ;;
  for_each periods (fun p =>
    t <- lift (Py.getitem tcap (-1)) ;;
    print [Text "- "; Int p; Text "日均换手: ";
           Num (Percent 2) (F64.div (np_mean E (Py.slice_from volume (- p))) t)] ;;
    t <- lift (Py.getitem tcap (-1)) ;;
    print [Text "- "; Int p; Text "日总换手: ";
           Num (Percent 2) (F64.div (np_sum E (Py.slice_from volume (- p))) t)]) ;;
  print blank.

(** [columns[1:]]: the indicator columns, each a name and its array. *)
Definition indicator_columns (close high low : list float)
  : list (string * list float) :=
  let '(kdj_k, kdj_d, kdj_j) := KDJ E close high low 9 3 in
  let '(macd_diff, macd_dea) := MACD E close 12 26 9 in
  let rsi_6 := talib_RSI E close 6 in
  let rsi_12 := talib_RSI E close 12 in
  let rsi_24 := talib_RSI E close 24 in
  let '(bb_upper, bb_middle, bb_lower) := talib_BBANDS_T3 E close in
  [("KDJ.K", kdj_k); ("KDJ.D", kdj_d); ("KDJ.J", kdj_j);
   ("MACD DIF", macd_diff); ("MACD DEA", macd_dea);
   ("RSI(6)", rsi_6); ("RSI(12)", rsi_12); ("RSI(24)", rsi_24);
   ("BBands Upper", bb_upper); ("BBands Middle", bb_middle);
   ("BBands Lower", bb_lower)]%string.

Definition technical_row (date : list string)
  (columns : list (string * list float)) (i : Z) : M unit :=
  dt <- lift (Py.getitem date i) ;;
  cells <- lift (Py.map_result (fun c => Py.getitem (snd c) i) columns) ;;
  print ([Text "| "; Text dt; Text "|"]
         ++ join_pieces " | " (map (fun x => [Num (Fixed 2) x]) cells)
         ++ [Text " |"]).

Definition build_technical_data (symbol : string) : M unit :=
  close <- read CLOSE ;;
  high <- read HIGH ;;
  low <- read LOW ;;
  if Py.len close <? 30 then ret tt
  else
    print [Text "# 技术指标(最近30日)"] ;;
    print blank ;;
    let columns := indicator_columns close high low in
    dates <- read DATE ;;
    let date := map (fun d => strftime_ymd (fromtimestamp E (div_1e9 d))) dates in
    print [Text ("| " ++ String.concat " | " ("日期" :: map fst columns) ++ " |")%string] ;;
    print [Text (Py.repeat_string "| --- " (S (List.length columns)) ++ "|")%string] ;;
    for_each (Py.range (-1) (Z.max (- Py.len date) (-31)) (-1))
      (technical_row date columns) ;;
    print blank.

(** One turn of the loop over the reporting dates: [acc] holds the local
    variables [rows] and [years]. *)
Definition financial_step (fin : finance) (acc : list fin_row * Z) (i : Z)
  : M (list fin_row * Z) :=
  let '(rows, years) := acc in
  t <- lift (Py.getitem (fin_DATE fin) i) ;;
  let date := fromtimestamp E (div_1e9 t) in
  if negb (month date =? 12) || (max_years <=? years) then ret acc
  else
    vals <- lift (Py.map_result
                    (fun f : string * (finance -> list float) * Z =>
                       let '(_, field, dv) := f in
                       match Py.getitem (field fin) i with
                       | Ok x => Ok (F64.div x (F64.of_Z dv))
                       | Raise e => Raise e
                       end) fields) ;;
    ret (rows ++ [{| row_label := strftime_year date; row_values := vals |}],
         years + 1).

Definition financial_line (rows : list fin_row) (i : Z) : M unit :=
  f <- lift (Py.getitem fields (i - 1)) ;;
  cells <- lift (Py.map_result (fun r => row_get r i) rows) ;;
  print ([Text "| "; Text (fst (fst f)); Text " | "]
         ++ join_pieces " " (map (fun x => [Num (Fixed 2) x; Text " |"]) cells)).

Definition build_financial_data (symbol : string) : M unit :=
  fin <- read (fun d => fst (DS_FINANCE d)) ;;
  let dates := fin_DATE fin in
  print [Text "# 财务数据"] ;;
  print blank ;;
  acc <- fold_M (financial_step fin) (Py.range (Py.len dates - 1) 0 (-1)) ([], 0) ;;
  let rows := fst acc in
  print (Text "| 指标 | "
         :: join_pieces " " (map (fun r => [Text (row_label r); Text " |"]) rows)) ;;
  print [Text (Py.repeat_string "| --- " (S (List.length rows)) ++ "|")%string] ;;
  r0 <- lift (Py.getitem rows 0) ;;
  for_each (Py.range 1 (row_len r0) 1) (financial_line rows) ;;
  print blank.

(** The four sections printed to the stream, in order. *)
Definition build_sections (symbol : string) : M unit :=
  build_basic_data symbol ;;
  build_trading_data symbol ;;
  build_technical_data symbol ;;
  build_financial_data symbol.

(** [build_stock_data(symbol, raw_data)]: a fresh stream, the four sections,
    then the text of the stream. The state returned with the result shows
    the two objects when the call ends, normally or by an exception. *)
Definition build_stock_data (symbol : string) (raw_data : bundle)
  : result string * state :=
  (build_sections symbol ;; getvalue) {| fp := []; data := raw_data |}.

End Report.

(** ** A sample environment and sample bundles

    Used to run the builders on concrete inputs. The reductions fold from
    left to right, every indicator is an array of NaN as long as its input
    (the value the libraries give before enough history), the lookup echoes
    the symbol, and local time is UTC+8. *)

Module Sample.

Definition fsum (l : list float) : float := fold_left F64.add l (F64.of_Z 0).
Definition fmean (l : list float) : float := F64.div (fsum l) (F64.of_Z (Py.len l)).
Definition fmax2 (a b : float) : float := if SFltb a b then b else a.
Definition fmin2 (a b : float) : float := if SFltb b a then b else a.
Definition fmaximum (l : list float) : float :=
  match l with [] => F64.nan | x :: r => fold_left fmax2 r x end.
Definition fminimum (l : list float) : float :=
  match l with [] => F64.nan | x :: r => fold_left fmin2 r x end.
Definition nans (l : list float) : list float := map (fun _ => F64.nan) l.

(** [datetime.fromtimestamp] where local time is UTC+8. The timestamp is
    split into its whole seconds and its fraction, the fraction is scaled
    to microseconds in binary64 and rounded to an integer, ties to even,
    and a full million carries into the seconds; the date is the one of
    that second in local time. Every timestamp of the sample bundles is
    finite. *)
Definition local_fromtimestamp (x : float) : datetime :=
  match F64.to_fraction x with
  | Some (n, d) =>
      let whole := Z.quot n d in
      let fraction := F64.sub x (F64.of_Z whole) in
      let micros :=
        match F64.to_fraction (F64.mul fraction (F64.of_Z 1000000)) with
        | Some (p, q) => Fmt.round_half_even p q
        | None => 0
        end in
      let secs :=
        if 1000000 <=? micros then whole + 1
        else if micros <? 0 then whole - 1
        else whole in
      civil_from_days ((secs + 28800) / 86400)
  | None => civil_from_days 0
  end.

Definition env : externals := {|
  symbol_with_name := map (fun s => (s, s));
  fromtimestamp := local_fromtimestamp;
  np_mean := fmean;
  np_sum := fsum;
  np_max := fmaximum;
  np_min := fminimum;
  KDJ := fun c _ _ _ _ => (nans c, nans c, nans c);
  MACD := fun c _ _ _ => (nans c, nans c);
  talib_RSI := fun c _ => nans c;
  talib_BBANDS_T3 := fun c => (nans c, nans c, nans c)
|}.

(** Midnight UTC of day number [d], in nanoseconds. *)
Definition day_ns (d : Z) : Z := d * 86400 * 10 ^ 9.

(** 2022-06-30, 2022-12-31, 2023-06-30, 2023-09-30, 2023-12-31 and
    2024-01-31 as day numbers. *)
Definition d_2022_06_30 : Z := 19173.
Definition d_2022_12_31 : Z := 19357.
Definition d_2023_06_30 : Z := 19538.
Definition d_2023_09_30 : Z := 19630.
Definition d_2023_12_31 : Z := 19722.
Definition d_2024_01_31 : Z := 19753.

Definition flat (n : nat) (x : Z) : list float := repeat (F64.of_Z x) n.

Definition finance_of (dates : list Z) : finance := {|
  fin_DATE := map day_ns dates;
  fin_MR := flat (List.length dates) 50000;
  fin_NP := flat (List.length dates) 20000;
  fin_EPS := flat (List.length dates) 2;
  fin_NAVPS := flat (List.length dates) 5;
  fin_ROE := flat (List.length dates) 12
|}.

(** [n] daily observations ending on 2024-01-31 with constant prices, and
    the given latest per-share earnings and reporting dates. *)
Definition bundle_of (n : nat) (eps : Z) (fin_dates : list Z) : bundle := {|
  DATE := map (fun k => day_ns (d_2024_01_31 + 1 - Z.of_nat n + Z.of_nat k)) (seq 0 n);
  CLOSE := flat n 10;
  CLOSE2 := flat n 10;
  HIGH := flat n 11;
  LOW := flat n 9;
  VOLUME := flat n 1000000;
  TCAP := flat n 100000000;
  EPS := flat n eps;
  EPSU := flat n 4;
  ROE := flat n 12;
  SECTOR := ["银行"; "MSCI中国"]%string;
  DS_FINANCE := (finance_of fin_dates, tt)
|}.

End Sample.

(** ** Vocabulary of the statements

    The closed forms of what each section prints, the shapes of lines the
    statements speak of, and the sample runs. *)

(** The state after the lines [ls] were printed. *)
Definition emit (s : state) (ls : list line) : state :=
  {| fp := fp s ++ ls; data := data s |}.

Definition writes {A} (P : line -> Prop) (m : M A) : Prop :=
  forall s, exists ls, snd (m s) = emit s ls /\ Forall P ls.

(** A float field printed with two decimals, or no float field at all. *)
Definition two_decimals (p : piece) : bool :=
  match p with
  | Num (Fixed 2) _ | Num (Percent 2) _ => true
  | Num _ _ => false
  | _ => true
  end.

(** The lines of the price subsection: today's and each window's prices. *)
Definition price_line (l : line) : Prop :=
  (exists c h lo,
     l = [Text "- 当日: "; Num (Fixed 3) c; Text " 最高: "; Num (Fixed 3) h;
          Text " 最低: "; Num (Fixed 3) lo])
  \/ (exists p avg mx mn,
     l = [Text "- "; Int p; Text "日均价: "; Num (Fixed 3) avg;
          Text " 最高: "; Num (Fixed 3) mx; Text " 最低: "; Num (Fixed 3) mn]).

Definition number_format_ok (l : line) : Prop :=
  price_line l \/ forallb two_decimals l = true.


(** The part of the report a line stands in: the subsection opened by the
    last heading printed before it, [Plain] after the title of a section. *)
Inductive place := Plain | Prices | Amplitude | Change | Volume | Turnover.

(** The place a line opens, when it is a title or a heading. *)
Definition heading (l : line) : option place :=
  match l with
  | [Text s] =>
      if String.eqb s "## 价格" then Some Prices
      else if String.eqb s "## 振幅" then Some Amplitude
      else if String.eqb s "## 涨跌幅" then Some Change
      else if String.eqb s "## 成交量(万手)" then Some Volume
      else if String.eqb s "## 换手率" then Some Turnover
      else if String.prefix "# " s then Some Plain
      else None
  | _ => None
  end.

(** The lines of a document that are no headings, each with its place;
    [k] is the place the document starts in. *)
Fixpoint placed (k : place) (doc : list line) : list (place * line) :=
  match doc with
  | [] => []
  | l :: rest =>
      match heading l with
      | Some k' => placed k' rest
      | None => (k, l) :: placed k rest
      end
  end.









(** The last [w] elements of a series, oldest first. *)
Definition last_n {A} (w : Z) (l : list A) : list A :=
  rev (firstn (Z.to_nat w) (rev l)).

(** The [k]-th element counted from the end, [back 1 l] being the last. *)
Definition back {A} (d : A) (k : Z) (l : list A) : A :=
  nth (Z.to_nat (Py.len l - k)) l d.

Definition reported_windows (N : Z) : list Z :=
  filter (fun w => w <=? N) canonical_periods.

Section Windows.
Variable E : externals.
Variable b : bundle.

Definition last_of (l : list float) : float := back F64.nan 1 l.

Definition price_window_line (w : Z) : line :=
  [Text "- "; Int w; Text "日均价: "; Num (Fixed 3) (np_mean E (last_n w (CLOSE b)));
   Text " 最高: "; Num (Fixed 3) (np_max E (last_n w (HIGH b)));
   Text " 最低: "; Num (Fixed 3) (np_min E (last_n w (LOW b)))].

Definition amplitude_window_line (w : Z) : line :=
  [Text "- "; Int w; Text "日振幅: ";
   Num (Percent 2)
     (F64.sub (F64.div (np_max E (last_n w (HIGH b))) (np_min E (last_n w (LOW b))))
        (F64.of_Z 1))].

Definition return_window_line (w : Z) : line :=
  [Text "- "; Int w; Text "日累计: ";
   Num (Fixed 2)
     (F64.mul (F64.sub (F64.div (last_of (CLOSE b)) (back F64.nan w (CLOSE b)))
                 (F64.of_Z 1)) (F64.of_Z 100));
   Text "%"].

Definition volume_window_line (w : Z) : line :=
  [Text "- "; Int w; Text "日均量(万手): ";
   Num (Fixed 2) (F64.div (np_mean E (last_n w (VOLUME b))) (F64.of_Z 1000000))].

Definition turnover_mean_line (w : Z) : line :=
  [Text "- "; Int w; Text "日均换手: ";
   Num (Percent 2) (F64.div (np_mean E (last_n w (VOLUME b))) (last_of (TCAP b)))].

Definition turnover_sum_line (w : Z) : line :=
  [Text "- "; Int w; Text "日总换手: ";
   Num (Percent 2) (F64.div (np_sum E (last_n w (VOLUME b))) (last_of (TCAP b)))].

(** Every line the section prints for the window [w]. *)
Definition window_lines (w : Z) : list line :=
  [price_window_line w; amplitude_window_line w; return_window_line w;
   volume_window_line w; turnover_mean_line w; turnover_sum_line w].

Definition trading_lines : list line :=
  let ws := reported_windows (Py.len (CLOSE b)) in
  [ [Text "# 交易数据"]; blank; [Text "## 价格"];
    [Text "- 当日: "; Num (Fixed 3) (last_of (CLOSE b));
     Text " 最高: "; Num (Fixed 3) (last_of (HIGH b));
     Text " 最低: "; Num (Fixed 3) (last_of (LOW b))] ]
  ++ flat_map (fun w => [price_window_line w]) ws
  ++ [ blank; [Text "## 振幅"];
       [Text "- 当日: ";
        Num (Percent 2)
          (F64.sub (F64.div (last_of (HIGH b)) (back F64.nan 2 (LOW b))) (F64.of_Z 1))] ]
  ++ flat_map (fun w => [amplitude_window_line w]) ws
  ++ [ blank; [Text "## 涨跌幅"];
       [Text "- 当日: ";
        Num (Percent 2)
          (F64.sub (F64.div (last_of (CLOSE b)) (back F64.nan 2 (CLOSE b))) (F64.of_Z 1))] ]
  ++ flat_map (fun w => [return_window_line w]) ws
  ++ [ blank; [Text "## 成交量(万手)"];
       [Text "- 当日: "; Num (Fixed 2) (F64.div (last_of (VOLUME b)) (F64.of_Z 1000000))] ]
  ++ flat_map (fun w => [volume_window_line w]) ws
  ++ [ blank; [Text "## 换手率"];
       [Text "- 当日: "; Num (Percent 2) (F64.div (last_of (VOLUME b)) (last_of (TCAP b)))] ]
  ++ flat_map (fun w => [turnover_mean_line w; turnover_sum_line w]) ws
  ++ [ blank ].

End Windows.

(** A line of the window [w]: it starts with the dash and the window size. *)
Definition window_line (w : Z) (l : line) : bool :=
  match l with
  | Text s :: Int p :: _ => String.eqb s "- " && (p =? w)
  | _ => false
  end.

(** The same judgement for the runs that start with the bundle [b]. *)
Definition writes_on {A} (b : bundle) (P : line -> Prop) (m : M A) : Prop :=
  forall s, data s = b -> exists ls, snd (m s) = emit s ls /\ Forall P ls.

Section Basic.
Variable E : externals.
Variable b : bundle.

(** [fin_ratio]: the ratio of the most recent reporting date, read as the
    library's date of [fin["DATE"][-1] / 1e9]. *)
Definition fin_ratio : float :=
  est_fin_ratio (fromtimestamp E (div_1e9 (back 0 1 (fin_DATE (fst (DS_FINANCE b)))))).

Definition pe_line : line :=
  [Text "- 市盈率: ";
   Num (Fixed 2) (F64.mul (F64.div (last_of (CLOSE2 b)) (last_of (EPS b))) fin_ratio)].

Definition pb_line : line :=
  [Text "- 市净率: ";
   Num (Fixed 2) (F64.mul (F64.div (last_of (CLOSE2 b)) (last_of (EPSU b))) fin_ratio)].

Definition basic_lines (sn : string * string) : list line :=
  [ [Text "# 基本数据"]; blank;
    [Text "- 股票代码: "; Text (fst sn)];
    [Text "- 股票名称: "; Text (snd sn)];
    [Text "- 数据日期: ";
     Text (strftime_ymd (fromtimestamp E (div_1e9 (back 0 1 (DATE b)))))];
    [Text "- 行业概念: "; Text (String.concat " " (filter_sector (SECTOR b)))];
    pe_line; pb_line;
    [Text "- 净资产收益率: "; Num (Fixed 2) (last_of (ROE b))];
    blank ].

End Basic.

(** [x] is finite and its exact value is the fraction [n / d]. *)
Definition is_fraction (x : float) (n d : Z) : bool :=
  match F64.to_fraction x with
  | Some (p, q) => p * d =? n * q
  | None => false
  end.

(** What the fixed-point format prints for the product of [q] and zero. *)
Definition zero_text (q : float) : string :=
  if F64.is_finite q then (if F64.signbit q then "-0.00" else "0.00") else "nan".

(** The dates of the table, as text: the library's date of [d / 1e9] for
    every entry [d] of DATE. *)
Definition date_column (E : externals) (b : bundle) : list string :=
  map (fun d => strftime_ymd (fromtimestamp E (div_1e9 d))) (DATE b).

(** The table row of the [k]-th observation counted from the end. *)
Definition technical_line (date : list string)
  (columns : list (string * list float)) (k : Z) : line :=
  [Text "| "; Text (back EmptyString k date); Text "|"]
  ++ join_pieces " | " (map (fun x => [Num (Fixed 2) x])
                          (map (fun c => back F64.nan k (snd c)) columns))
  ++ [Text " |"].

(** The observations the table shows, counted from the end: 1, 2, ... *)
Definition shown_rows (N : Z) : list Z :=
  map (fun k => 1 + Z.of_nat k) (seq 0 (Z.to_nat (Z.min 30 (N - 1)))).

Definition technical_lines (E : externals) (b : bundle) : list line :=
  let columns := indicator_columns E (CLOSE b) (HIGH b) (LOW b) in
  [ [Text "# 技术指标(最近30日)"]; blank;
    [Text ("| " ++ String.concat " | " ("日期" :: map fst columns) ++ " |")%string];
    [Text (Py.repeat_string "| --- " (S (List.length columns)) ++ "|")%string] ]
  ++ map (technical_line (date_column E b) columns) (shown_rows (Py.len (DATE b)))
  ++ [ blank ].

(** The contract of the indicator libraries: every output array is as long
    as the close series. *)
Definition full_length (E : externals) (b : bundle) : Prop :=
  Forall (fun c => Py.len (snd c) = Py.len (CLOSE b))
    (indicator_columns E (CLOSE b) (HIGH b) (LOW b)).

Section Walk.
Variable E : externals.
Variable fin : finance.

(** The reporting date at index [i] as the code reads it, the library's
    date of [dates[i] / 1e9], and whether it is a December date. *)
Definition report_date (i : Z) : datetime :=
  fromtimestamp E (div_1e9 (nth (Z.to_nat i) (fin_DATE fin) 0)).

Definition year_end (i : Z) : bool := month (report_date i) =? 12.

(** The row the loop builds at index [i]. *)
Definition row_at (i : Z) : fin_row :=
  {| row_label := strftime_year (report_date i);
     row_values :=
       map (fun f : string * (finance -> list float) * Z =>
              F64.div (nth (Z.to_nat i) (snd (fst f) fin) F64.nan) (F64.of_Z (snd f)))
         fields |}.

(** The indices the loop visits, in order: from the last one down to 1. *)
Definition walked : list Z := Py.range (Py.len (fin_DATE fin) - 1) 0 (-1).

(** The indices whose rows the loop collects. *)
Definition collected : list Z := firstn 5 (filter year_end walked).

(** Every field array reaches the indices the loop reads it at. *)
Definition fields_cover (idx : list Z) : Prop :=
  forall i f, In i idx -> year_end i = true -> In f fields ->
              i < Py.len (snd (fst f) fin).

End Walk.

(** The header of the fundamentals table: one column per collected row. *)
Definition header_line (rows : list fin_row) : line :=
  Text "| 指标 | " :: join_pieces " " (map (fun r => [Text (row_label r); Text " |"]) rows).

Definition sample_symbol : string := "600000".

Definition start (b : bundle) : state := {| fp := []; data := b |}.

(** Thirty observations, positive earnings, the latest report in December. *)
Definition thirty_days : bundle :=
  Sample.bundle_of 30 2 [Sample.d_2022_12_31; Sample.d_2023_06_30; Sample.d_2023_12_31].

(** Negative earnings and the latest report in January. *)
Definition january_report : bundle :=
  Sample.bundle_of 30 (-2)
    [Sample.d_2022_12_31; Sample.d_2023_12_31; Sample.d_2024_01_31].

(** Per-share earnings of 100 and the latest report in September. *)
Definition september_report : bundle :=
  Sample.bundle_of 30 100
    [Sample.d_2022_06_30; Sample.d_2022_12_31; Sample.d_2023_06_30;
     Sample.d_2023_09_30].

(** A ratio figure in the order the specification words it:
    price x annualization ratio / per-share value. *)
Definition worded_ratio (price ratio per_share : float) : float :=
  F64.div (F64.mul price ratio) per_share.


(** One observation only. *)
Definition one_day : bundle :=
  Sample.bundle_of 1 2 [Sample.d_2022_12_31; Sample.d_2023_12_31].

(** No December report. *)
Definition no_year_end : bundle :=
  Sample.bundle_of 30 2 [Sample.d_2023_06_30].

(** The text of every line of a document. *)
Definition texts (doc : list line) : list string := map render_line doc.

Definition has_text (t : string) (doc : list line) : bool :=
  existsb (String.eqb t) (texts doc).

(** A data row of the indicator table: it opens with a date cell. *)
Definition is_technical_row (l : line) : bool :=
  match l with
  | Text a :: Text _ :: Text b :: _ => String.eqb a "| " && String.eqb b "|"
  | _ => false
  end.

(** The December rows of the whole history, most recent first, at most five:
    the year columns as the specification words them. *)
Definition year_end_rows (E : externals) (fin : finance) : list Z :=
  firstn 5 (filter (year_end E fin) (Py.range (Py.len (fin_DATE fin) - 1) (-1) (-1))).

(** * Properties *)

(** ** Every builder only appends to the stream and only reads the bundle *)

Lemma emit_nil s : emit s [] = s.
Proof. destruct s; unfold emit; cbn. now rewrite app_nil_r. Qed.

Lemma emit_emit s a b : emit (emit s a) b = emit s (a ++ b).
Proof. unfold emit; cbn. now rewrite app_assoc. Qed.

Section Writes.
Context (P : line -> Prop).

Lemma writes_ret {A} (a : A) : writes P (ret a).
Proof. intros s. exists []. now rewrite emit_nil. Qed.

Lemma writes_lift {A} (r : result A) : writes P (lift r).
Proof. intros s. exists []. now rewrite emit_nil. Qed.

Lemma writes_read {A} (k : bundle -> A) : writes P (read k).
Proof. intros s. exists []. now rewrite emit_nil. Qed.

Lemma writes_getvalue : writes P getvalue.
Proof. intros s. exists []. now rewrite emit_nil. Qed.

Lemma writes_print l : P l -> writes P (print l).
Proof. intros H s. exists [l]. split; [reflexivity | now constructor]. Qed.

Lemma writes_bind {A B} (m : M A) (f : A -> M B) :
  writes P m -> (forall a, writes P (f a)) -> writes P (bind m f).
Proof.
  intros Hm Hf s. unfold bind.
  destruct (Hm s) as (l1 & E1 & F1).
  destruct (m s) as [[a | e] s1]; cbn in E1; subst s1.
  - destruct (Hf a (emit s l1)) as (l2 & E2 & F2).
    exists (l1 ++ l2). rewrite E2, emit_emit. split; [reflexivity | now apply Forall_app].
  - now exists l1.
Qed.

Lemma writes_for_each {A} (xs : list A) (body : A -> M unit) :
  (forall x, writes P (body x)) -> writes P (for_each xs body).
Proof.
  intros Hb. induction xs as [| x xs IH]; cbn.
  - apply writes_ret.
  - apply writes_bind; auto.
Qed.

Lemma writes_fold_M {A B} (body : B -> A -> M B) (xs : list A) :
  (forall b x, writes P (body b x)) -> forall acc, writes P (fold_M body xs acc).
Proof.
  intros Hb. induction xs as [| x xs IH]; intros acc; cbn.
  - apply writes_ret.
  - apply writes_bind; auto.
Qed.

End Writes.

(** ** Shapes of the printed lines *)

Lemma join_pieces_two_decimals sep parts :
  Forall (fun p => forallb two_decimals p = true) parts ->
  forallb two_decimals (join_pieces sep parts) = true.
Proof.
  induction 1 as [| p rest Hp Hrest IH]; [reflexivity |].
  destruct rest as [| q rest]; [exact Hp |].
  change (join_pieces sep (p :: q :: rest))
    with (p ++ Text sep :: join_pieces sep (q :: rest)).
  rewrite forallb_app, Hp. exact IH.
Qed.

Ltac writes_step :=
  first
    [ apply writes_ret | apply writes_lift | apply writes_read
    | apply writes_getvalue
    | apply writes_bind; [| intros ? ]
    | apply writes_for_each; intros ?
    | apply writes_fold_M; intros ? ? ].

Section Frame.
Variable E : externals.
Variable symbol : string.

Lemma build_basic_data_writes : writes number_format_ok (build_basic_data E symbol).
Proof.
  unfold build_basic_data.
  repeat first [ writes_step | apply writes_print; right; reflexivity ].
Qed.

Lemma build_trading_data_writes : writes number_format_ok (build_trading_data E symbol).
Proof.
  unfold build_trading_data.
  repeat first
    [ writes_step
    | apply writes_print; first
        [ right; reflexivity
        | left; left; do 3 eexists; reflexivity
        | left; right; do 4 eexists; reflexivity ] ].
Qed.

Lemma technical_row_writes date columns i :
  writes number_format_ok (technical_row date columns i).
Proof.
  unfold technical_row. repeat writes_step.
  apply writes_print. right.
  rewrite !forallb_app. cbn [forallb two_decimals andb].
  rewrite join_pieces_two_decimals; [reflexivity |].
  apply Forall_map, Forall_forall. reflexivity.
Qed.

Lemma build_technical_data_writes :
  writes number_format_ok (build_technical_data E symbol).
Proof.
  unfold build_technical_data. repeat writes_step.
  destruct (Py.len _ <? 30); [apply writes_ret |].
  repeat first
    [ apply technical_row_writes | writes_step
    | apply writes_print; right; reflexivity ].
Qed.

Lemma financial_step_writes fin acc i :
  writes number_format_ok (financial_step E fin acc i).
Proof.
  unfold financial_step. destruct acc as [rows years].
  repeat writes_step.
  destruct (negb _ || _); repeat writes_step.
Qed.

Lemma financial_line_writes rows i :
  writes number_format_ok (financial_line rows i).
Proof.
  unfold financial_line. repeat writes_step.
  apply writes_print. right.
  cbn [app forallb two_decimals andb].
  apply join_pieces_two_decimals, Forall_map, Forall_forall. reflexivity.
Qed.

Lemma build_financial_data_writes :
  writes number_format_ok (build_financial_data E symbol).
Proof.
  unfold build_financial_data.
  repeat first
    [ apply financial_step_writes | apply financial_line_writes | writes_step
    | apply writes_print; right; first
        [ reflexivity
        | cbn [forallb two_decimals andb];
          apply join_pieces_two_decimals, Forall_map, Forall_forall; reflexivity ] ].
Qed.

Lemma build_sections_writes : writes number_format_ok (build_sections E symbol).
Proof.
  unfold build_sections.
  repeat first
    [ apply build_basic_data_writes | apply build_trading_data_writes
    | apply build_technical_data_writes | apply build_financial_data_writes
    | writes_step ].
Qed.

Lemma build_stock_data_writes raw_data :
  exists ls,
    snd (build_stock_data E symbol raw_data) = {| fp := ls; data := raw_data |}
    /\ Forall number_format_ok ls.
Proof.
  unfold build_stock_data.
  assert (W : writes number_format_ok (build_sections E symbol ;; getvalue)).
  { apply writes_bind; [apply build_sections_writes | intros; apply writes_getvalue]. }
  destruct (W {| fp := []; data := raw_data |}) as (ls & Hs & Hok).
  exists ls. now rewrite Hs.
Qed.

End Frame.

(** ** Decimals of a formatted float *)









(** ** Indexing, slicing and ranges *)

Lemma len_nonneg {A} (l : list A) : 0 <= Py.len l.
Proof. unfold Py.len. lia. Qed.

Lemma len_app {A} (a b : list A) : Py.len (a ++ b) = Py.len a + Py.len b.
Proof. unfold Py.len. rewrite length_app. lia. Qed.

Lemma getitem_back {A} (d : A) (l : list A) (k : Z) :
  1 <= k <= Py.len l -> Py.getitem l (- k) = Ok (back d k l).
Proof.
  intros H. unfold Py.getitem, back.
  replace (- k <? 0) with true by (symmetry; apply Z.ltb_lt; lia).
  replace (- k + Py.len l) with (Py.len l - k) by lia.
  replace ((0 <=? Py.len l - k) && (Py.len l - k <? Py.len l)) with true
    by (symmetry; apply andb_true_iff; split; [apply Z.leb_le | apply Z.ltb_lt]; lia).
  destruct (nth_error l (Z.to_nat (Py.len l - k))) as [x |] eqn:Hn.
  - now rewrite (nth_error_nth _ _ d Hn).
  - apply nth_error_None in Hn. unfold Py.len in *. lia.
Qed.

Lemma getitem_nonneg {A} (d : A) (l : list A) (i : Z) :
  0 <= i < Py.len l -> Py.getitem l i = Ok (nth (Z.to_nat i) l d).
Proof.
  intros H. unfold Py.getitem.
  replace (i <? 0) with false by (symmetry; apply Z.ltb_ge; lia).
  replace ((0 <=? i) && (i <? Py.len l)) with true
    by (symmetry; apply andb_true_iff; split; [apply Z.leb_le | apply Z.ltb_lt]; lia).
  destruct (nth_error l (Z.to_nat i)) as [x |] eqn:Hn.
  - now rewrite (nth_error_nth _ _ d Hn).
  - apply nth_error_None in Hn. unfold Py.len in *. lia.
Qed.

Lemma getitem_short {A} (l : list A) (k : Z) :
  Py.len l < k -> Py.getitem l (- k) = Raise IndexError.
Proof.
  intros H. pose proof (len_nonneg l). unfold Py.getitem.
  replace (- k <? 0) with true by (symmetry; apply Z.ltb_lt; lia).
  replace (0 <=? - k + Py.len l) with false by (symmetry; apply Z.leb_gt; lia).
  reflexivity.
Qed.

Lemma getitem_nil {A} (i : Z) : Py.getitem (@nil A) i = Raise IndexError.
Proof.
  unfold Py.getitem. cbn.
  destruct (i <? 0) eqn:Hi.
  - replace (0 <=? i + 0) with false by (symmetry; apply Z.leb_gt; apply Z.ltb_lt in Hi; lia).
    reflexivity.
  - replace (i <? 0) with false. now rewrite andb_false_r.
Qed.

(** Indexing raises nothing but IndexError. *)
Lemma getitem_cases {A} (l : list A) (i : Z) :
  Py.getitem l i = Raise IndexError \/ exists x, Py.getitem l i = Ok x.
Proof.
  unfold Py.getitem.
  destruct (_ && _); [| now left].
  destruct (nth_error _ _); [right; eauto | now left].
Qed.

Lemma last_n_length {A} (w : Z) (l : list A) :
  0 <= w <= Py.len l -> Py.len (last_n w l) = w.
Proof.
  intros H. unfold last_n, Py.len in *.
  rewrite length_rev, length_firstn, length_rev. lia.
Qed.

(** The slice [l[-w:]] is the last [w] elements when the series has them. *)
Lemma slice_from_last_n {A} (w : Z) (l : list A) :
  0 < w <= Py.len l -> Py.slice_from l (- w) = last_n w l.
Proof.
  intros H. unfold Py.slice_from, last_n.
  replace (- w <? 0) with true by (symmetry; apply Z.ltb_lt; lia).
  rewrite Z.max_l by lia.
  rewrite firstn_rev, rev_involutive. f_equal. unfold Py.len in *. lia.
Qed.

(** With fewer than [w] elements the slice is the whole series. *)
Lemma slice_from_short {A} (w : Z) (l : list A) :
  Py.len l <= w -> Py.slice_from l (- w) = l.
Proof.
  intros H. pose proof (len_nonneg l). unfold Py.slice_from.
  destruct (- w <? 0) eqn:Hw.
  - rewrite Z.max_r by lia. reflexivity.
  - apply Z.ltb_ge in Hw. rewrite Z.min_l by lia.
    replace (- w) with 0 by lia. reflexivity.
Qed.

Lemma range_down (start stop : Z) :
  Py.range start stop (-1)
  = map (fun k => start - Z.of_nat k) (seq 0 (Z.to_nat (start - stop))).
Proof.
  unfold Py.range. cbn [Z.ltb Z.compare Z.opp].
  replace ((start - stop - -1 - 1) / 1) with (start - stop) by (rewrite Z.div_1_r; lia).
  apply map_ext. intros k. lia.
Qed.

Lemma range_up (start stop : Z) :
  Py.range start stop 1
  = map (fun k => start + Z.of_nat k) (seq 0 (Z.to_nat (stop - start))).
Proof.
  unfold Py.range. cbn [Z.ltb Z.compare].
  replace ((stop - start + 1 - 1) / 1) with (stop - start) by (rewrite Z.div_1_r; lia).
  apply map_ext. intros k. lia.
Qed.

(** ** Running the monad step by step *)

Lemma bind_read {A B} (k : bundle -> A) (f : A -> M B) s :
  bind (read k) f s = f (k (data s)) s.
Proof. reflexivity. Qed.

Lemma bind_print {B} l (f : unit -> M B) s :
  bind (print l) f s = f tt (emit s [l]).
Proof. reflexivity. Qed.

Lemma print_run l s : print l s = (Ok tt, emit s [l]).
Proof. reflexivity. Qed.

Lemma bind_lift_ok {A B} (a : A) (f : A -> M B) s :
  bind (lift (Ok a)) f s = f a s.
Proof. reflexivity. Qed.

Lemma bind_lift_raise {A B} e (f : A -> M B) s :
  bind (lift (Raise e)) f s = (Raise e, s).
Proof. reflexivity. Qed.

Lemma bind_ok {A B} (m : M A) (f : A -> M B) s a s' :
  m s = (Ok a, s') -> bind m f s = f a s'.
Proof. intros H. unfold bind. now rewrite H. Qed.

Lemma data_emit s ls : data (emit s ls) = data s.
Proof. reflexivity. Qed.

(** A loop whose every turn succeeds and prints [g x]. *)
Lemma for_each_emit {A} (g : A -> list line) (body : A -> M unit) (xs : list A) :
  (forall x, In x xs -> forall s, body x s = (Ok tt, emit s (g x))) ->
  forall s, for_each xs body s = (Ok tt, emit s (flat_map g xs)).
Proof.
  induction xs as [| x xs IH]; intros Hb s; cbn [for_each flat_map].
  - unfold ret. now rewrite emit_nil.
  - rewrite (bind_ok _ _ _ _ _ (Hb x (or_introl eq_refl) s)).
    rewrite IH by (intros; apply Hb; now right).
    now rewrite emit_emit.
Qed.

Lemma getitem_last {A} (d : A) (l : list A) :
  1 <= Py.len l -> Py.getitem l (-1) = Ok (back d 1 l).
Proof. intros H. apply (getitem_back d l 1). lia. Qed.

Lemma getitem_last2 {A} (d : A) (l : list A) :
  2 <= Py.len l -> Py.getitem l (-2) = Ok (back d 2 l).
Proof. intros H. apply (getitem_back d l 2). lia. Qed.

Lemma bind_for_each_emit {A B} (g : A -> list line) (body : A -> M unit)
  (xs : list A) (f : unit -> M B) s :
  (forall x, In x xs -> forall s, body x s = (Ok tt, emit s (g x))) ->
  bind (for_each xs body) f s = f tt (emit s (flat_map g xs)).
Proof. intros H. apply bind_ok. now apply for_each_emit. Qed.

(** ** The trading-data section in closed form *)

Lemma reported_windows_spec N w :
  In w (reported_windows N) <-> In w canonical_periods /\ w <= N.
Proof.
  unfold reported_windows. rewrite filter_In, Z.leb_le. reflexivity.
Qed.

Lemma canonical_periods_ge w : In w canonical_periods -> 5 <= w.
Proof. cbn. intuition lia. Qed.

Lemma amax_ok E (l : list float) : 0 < Py.len l -> amax E l = Ok (np_max E l).
Proof. destruct l; [cbn; lia | reflexivity]. Qed.

Lemma amin_ok E (l : list float) : 0 < Py.len l -> amin E l = Ok (np_min E l).
Proof. destruct l; [cbn; lia | reflexivity]. Qed.

Section TradingRun.
Variable E : externals.
Variable symbol : string.
Variable s : state.
Variable N : Z.
Hypothesis close_len : Py.len (CLOSE (data s)) = N.
Hypothesis high_len : Py.len (HIGH (data s)) = N.
Hypothesis low_len : Py.len (LOW (data s)) = N.
Hypothesis volume_len : Py.len (VOLUME (data s)) = N.
Hypothesis tcap_len : Py.len (TCAP (data s)) = N.

Ltac window_facts x Hx :=
  apply reported_windows_spec in Hx; destruct Hx as [Hc Hle];
  apply canonical_periods_ge in Hc;
  rewrite ?(slice_from_last_n x (CLOSE (data s))),
          ?(slice_from_last_n x (HIGH (data s))),
          ?(slice_from_last_n x (LOW (data s))),
          ?(slice_from_last_n x (VOLUME (data s))) by lia;
  rewrite ?amax_ok, ?amin_ok by (rewrite last_n_length; lia).

Lemma build_trading_data_run :
  2 <= N ->
  build_trading_data E symbol s = (Ok tt, emit s (trading_lines E (data s))).
Proof.
  intros HN. unfold build_trading_data.
  rewrite !bind_read.
  change (filter (fun n => n <=? Py.len (CLOSE (data s))) canonical_periods)
    with (reported_windows (Py.len (CLOSE (data s)))).
  rewrite close_len.
  rewrite !(getitem_last F64.nan), !(getitem_last2 F64.nan) by lia.
  rewrite !bind_print, !bind_lift_ok, bind_print.
  rewrite (bind_for_each_emit (fun w => [price_window_line E (data s) w])).
  2:{ intros x Hx s0. window_facts x Hx. reflexivity. }
  rewrite !bind_print, !bind_lift_ok, bind_print.
  rewrite (bind_for_each_emit (fun w => [amplitude_window_line E (data s) w])).
  2:{ intros x Hx s0. window_facts x Hx. reflexivity. }
  rewrite !bind_print, !bind_lift_ok, bind_print.
  rewrite (bind_for_each_emit (fun w => [return_window_line (data s) w])).
  2:{ intros x Hx s0. window_facts x Hx.
      rewrite (getitem_back F64.nan _ x) by lia. reflexivity. }
  rewrite !bind_print, !bind_lift_ok, bind_print.
  rewrite (bind_for_each_emit (fun w => [volume_window_line E (data s) w])).
  2:{ intros x Hx s0. window_facts x Hx. reflexivity. }
  rewrite !bind_print, !bind_lift_ok, bind_print.
  rewrite (bind_for_each_emit
             (fun w => [turnover_mean_line E (data s) w; turnover_sum_line E (data s) w])).
  2:{ intros x Hx s0. window_facts x Hx.
      rewrite bind_lift_ok, bind_print, bind_lift_ok, print_run.
      now rewrite emit_emit. }
  rewrite print_run, !emit_emit.
  unfold trading_lines. rewrite close_len.
  f_equal; rewrite <- ?app_assoc; reflexivity.
Qed.

End TradingRun.

Lemma writes_for_each_in {A} (P : line -> Prop) (xs : list A) (body : A -> M unit) :
  (forall x, In x xs -> writes P (body x)) -> writes P (for_each xs body).
Proof.
  induction xs as [| x xs IH]; intros Hb; cbn [for_each].
  - apply writes_ret.
  - apply writes_bind; [apply Hb; now left | intros _; apply IH].
    intros y Hy. apply Hb. now right.
Qed.

Lemma writes_on_any {A} b P (m : M A) : writes P m -> writes_on b P m.
Proof. intros H s _. apply H. Qed.

Lemma writes_on_bind {A B} b P (m : M A) (f : A -> M B) :
  writes_on b P m -> (forall a, writes_on b P (f a)) -> writes_on b P (bind m f).
Proof.
  intros Hm Hf s Hs. unfold bind.
  destruct (Hm s Hs) as (l1 & E1 & F1).
  destruct (m s) as [[a | e] s1]; cbn in E1; subst s1.
  - destruct (Hf a (emit s l1) Hs) as (l2 & E2 & F2).
    exists (l1 ++ l2). rewrite E2, emit_emit. split; [reflexivity | now apply Forall_app].
  - now exists l1.
Qed.

Lemma writes_on_read {A B} b P (k : bundle -> A) (f : A -> M B) :
  writes_on b P (f (k b)) -> writes_on b P (bind (read k) f).
Proof. intros H s Hs. rewrite bind_read, Hs. now apply H. Qed.

Lemma writes_on_for_each {A} b P (xs : list A) (body : A -> M unit) :
  (forall x, In x xs -> writes_on b P (body x)) -> writes_on b P (for_each xs body).
Proof.
  induction xs as [| x xs IH]; intros Hb; cbn [for_each].
  - apply writes_on_any, writes_ret.
  - apply writes_on_bind; [apply Hb; now left | intros _; apply IH].
    intros y Hy. apply Hb. now right.
Qed.

(** Every window line the section prints, whatever the outcome, is the line
    of a window that passed the filter on the length of the close series. *)
Lemma build_trading_data_windows E symbol b :
  writes_on b
    (fun l => forall w, window_line w l = true ->
                        In w (reported_windows (Py.len (CLOSE b))))
    (build_trading_data E symbol).
Proof.
  unfold build_trading_data. do 5 apply writes_on_read.
  change (filter (fun n => n <=? Py.len (CLOSE b)) canonical_periods)
    with (reported_windows (Py.len (CLOSE b))).
  set (P := fun l : line => _).
  assert (Hfix : forall l, (forall w, window_line w l = false) -> P l).
  { intros l Hl w Hw. rewrite Hl in Hw. discriminate. }
  assert (Hwin : forall p rest, In p (reported_windows (Py.len (CLOSE b))) ->
                                P (Text "- " :: Int p :: rest)).
  { intros p rest Hp w Hw. cbn in Hw. apply Z.eqb_eq in Hw. now subst. }
  repeat first
    [ apply writes_on_bind; [| intros ? ]
    | apply writes_on_for_each; intros ? ?
    | apply writes_on_any, writes_lift
    | apply writes_on_any, writes_print;
      first [ apply Hfix; reflexivity | now apply Hwin ] ].
Qed.

Lemma trading_lines_window E b w l :
  In l (trading_lines E b) -> window_line w l = true -> In l (window_lines E b w).
Proof.
  unfold trading_lines. intros Hin Hw.
  repeat (apply in_app_or in Hin; destruct Hin as [Hin | Hin]);
    try (apply in_flat_map in Hin; destruct Hin as (w' & _ & Hin));
    cbn [In] in Hin;
    repeat (destruct Hin as [Hin | Hin]; [subst l |]);
    try contradiction; try discriminate Hw;
    cbn in Hw; apply Z.eqb_eq in Hw; subst w'; cbn; tauto.
Qed.

Lemma window_lines_incl E b w :
  In w (reported_windows (Py.len (CLOSE b))) ->
  incl (window_lines E b w) (trading_lines E b).
Proof.
  intros Hw l Hl. unfold trading_lines.
  assert (F : forall g : Z -> list line, In l (g w) ->
            In l (flat_map g (reported_windows (Py.len (CLOSE b))))).
  { intros g Hg. apply in_flat_map. eauto. }
  cbn [window_lines In] in Hl.
  repeat rewrite in_app_iff.
  destruct Hl as [<- | [<- | [<- | [<- | [<- | [<- | []]]]]]].
  - right; left. apply F. now left.
  - do 3 right; left. apply F. now left.
  - do 5 right; left. apply F. now left.
  - do 7 right; left. apply F. now left.
  - do 9 right; left. apply F. now left.
  - do 9 right; left. apply F. right; now left.
Qed.

Lemma emit_inj s a b : emit s a = emit s b -> a = b.
Proof. unfold emit. intros H. injection H as H. now apply app_inv_head in H. Qed.

(** C1. With every numeric series of the bundle of length N, the lines the
    trading-data section prints for a canonical window w exist exactly when
    w <= N, and then the section completes and each such line holds the
    mean, maximum and minimum of exactly the last w elements of its series. *)
Theorem window_figures_of_last_elements
  (E : externals) (symbol : string) (s : state) (N : Z) :
  Py.len (CLOSE (data s)) = N ->
  Py.len (HIGH (data s)) = N ->
  Py.len (LOW (data s)) = N ->
  Py.len (VOLUME (data s)) = N ->
  Py.len (TCAP (data s)) = N ->
  exists out,
    snd (build_trading_data E symbol s) = emit s out /\
    forall w, In w canonical_periods ->
      ((exists l, In l out /\ window_line w l = true) <-> w <= N) /\
      (w <= N ->
         fst (build_trading_data E symbol s) = Ok tt /\
         incl (window_lines E (data s) w) out /\
         forall l, In l out -> window_line w l = true ->
                   In l (window_lines E (data s) w)).
Proof.
  intros Hc Hh Hl Hv Ht.
  destruct (build_trading_data_windows E symbol (data s) s eq_refl)
    as (out & Hout & Hall).
  exists out. split; [exact Hout |]. intros w Hw.
  assert (Hrun : w <= N ->
            build_trading_data E symbol s = (Ok tt, emit s (trading_lines E (data s)))).
  { intros Hle. apply canonical_periods_ge in Hw.
    apply (build_trading_data_run E symbol s N); auto; lia. }
  assert (Heq : w <= N -> out = trading_lines E (data s)).
  { intros Hle. rewrite (Hrun Hle) in Hout. cbn in Hout.
    symmetry. now apply emit_inj in Hout. }
  assert (Hrep : w <= N -> In w (reported_windows (Py.len (CLOSE (data s))))).
  { intros Hle. apply reported_windows_spec. rewrite Hc. now split. }
  split; [split |].
  - intros (l & Hin & Hwl). rewrite Forall_forall in Hall.
    specialize (Hall l Hin w Hwl). apply reported_windows_spec in Hall.
    rewrite Hc in Hall. tauto.
  - intros Hle. exists (price_window_line E (data s) w). split; [| cbn; now rewrite Z.eqb_refl].
    rewrite (Heq Hle). apply (window_lines_incl E (data s) w (Hrep Hle)). now left.
  - intros Hle. rewrite (Hrun Hle), (Heq Hle). split; [reflexivity | split].
    + apply window_lines_incl, Hrep, Hle.
    + apply trading_lines_window.
Qed.

(** ** The basic-facts section in closed form *)

Section BasicRun.
Variable E : externals.
Variable symbol : string.
Variable s : state.
Variable sn : string * string.
Variable others : list (string * string).
Hypothesis lookup : symbol_with_name E [symbol] = sn :: others.
Hypothesis date_len : 1 <= Py.len (DATE (data s)).
Hypothesis fin_date_len : 1 <= Py.len (fin_DATE (fst (DS_FINANCE (data s)))).
Hypothesis close2_len : 1 <= Py.len (CLOSE2 (data s)).
Hypothesis eps_len : 1 <= Py.len (EPS (data s)).
Hypothesis epsu_len : 1 <= Py.len (EPSU (data s)).
Hypothesis roe_len : 1 <= Py.len (ROE (data s)).

Lemma build_basic_data_run :
  build_basic_data E symbol s = (Ok tt, emit s (basic_lines E (data s) sn)).
Proof.
  unfold build_basic_data.
  rewrite !bind_print, lookup.
  change (Py.getitem (sn :: others) 0) with (Ok sn).
  repeat progress
    (rewrite ?bind_lift_ok, ?bind_print, ?bind_read; cbn [data emit];
     rewrite ?(getitem_last 0), ?(getitem_last F64.nan) by assumption).
  rewrite print_run, !emit_emit. reflexivity.
Qed.

End BasicRun.

Lemma est_fin_ratio_other (d : datetime) :
  month d <> 12 -> month d <> 9 -> month d <> 6 -> month d <> 3 ->
  est_fin_ratio d = S754_zero false.
Proof.
  intros H12 H9 H6 H3. unfold est_fin_ratio.
  apply Z.eqb_neq in H12, H9, H6, H3. now rewrite H12, H9, H6, H3.
Qed.

(** C5. The annualization ratio is exactly 1 for a December date, 3/4 for
    September, 1/2 for June, 1/4 for March and (positive) zero for every
    other month. *)
Theorem est_fin_ratio_table (d : datetime) :
  (month d = 12 -> is_fraction (est_fin_ratio d) 1 1 = true) /\
  (month d = 9 -> is_fraction (est_fin_ratio d) 3 4 = true) /\
  (month d = 6 -> is_fraction (est_fin_ratio d) 1 2 = true) /\
  (month d = 3 -> is_fraction (est_fin_ratio d) 1 4 = true) /\
  (month d <> 12 -> month d <> 9 -> month d <> 6 -> month d <> 3 ->
   est_fin_ratio d = S754_zero false).
Proof.
  unfold est_fin_ratio.
  repeat split; intros;
    repeat match goal with
           | H : month d = _ |- _ => rewrite H
           | H : month d <> ?k |- _ => apply Z.eqb_neq in H; rewrite H
           end; reflexivity.
Qed.

Lemma est_fin_ratio_table_witness :
  is_fraction (est_fin_ratio {| year := 2023; month := 9; day := 30 |}) 3 4 = true.
Proof.
  apply (proj1 (proj2 (est_fin_ratio_table {| year := 2023; month := 9; day := 30 |}))).
  reflexivity.
Defined.

(** C7 (amended). When the lookup answers and the arrays it reads are not
    empty, the basic-facts section completes and its seventh line is the
    price-to-earnings figure (latest CLOSE2 / latest EPS) * ratio, the
    quotient rounded to binary64 before the product, with the ratio of the
    most recent reporting date, printed with two decimals. *)
Theorem earnings_ratio_figure
  (E : externals) (symbol : string) (s : state)
  (sn : string * string) (others : list (string * string)) :
  symbol_with_name E [symbol] = sn :: others ->
  1 <= Py.len (DATE (data s)) ->
  1 <= Py.len (fin_DATE (fst (DS_FINANCE (data s)))) ->
  1 <= Py.len (CLOSE2 (data s)) ->
  1 <= Py.len (EPS (data s)) ->
  1 <= Py.len (EPSU (data s)) ->
  1 <= Py.len (ROE (data s)) ->
  let price := last_of (CLOSE2 (data s)) in
  let ratio :=
    est_fin_ratio
      (fromtimestamp E (div_1e9 (back 0 1 (fin_DATE (fst (DS_FINANCE (data s))))))) in
  exists out,
    build_basic_data E symbol s = (Ok tt, emit s out) /\
    nth_error out 6
    = Some [Text "- 市盈率: ";
            Num (Fixed 2) (F64.mul (F64.div price (last_of (EPS (data s)))) ratio)].
Proof.
  intros Hl Hd Hf Hc He Hu Hr price ratio.
  exists (basic_lines E (data s) sn). split.
  - now apply (build_basic_data_run E symbol s sn others).
  - reflexivity.
Qed.

Lemma format_times_zero q :
  Fmt.format (Fixed 2) (F64.mul q (S754_zero false)) = zero_text q.
Proof. destruct q as [[|] | [|] | | [|] m e]; reflexivity. Qed.

(** C10 (amended). When the month of the most recent reporting date is none
    of 3, 6, 9, 12, the ratio is zero and each of the two figures is the
    product of its quotient with zero: it prints 0.00 when the quotient is
    finite with a clear sign bit, -0.00 when it is finite with the sign bit
    set, and nan when the quotient is infinite or not a number. *)
Theorem zero_ratio_figures
  (E : externals) (symbol : string) (s : state)
  (sn : string * string) (others : list (string * string)) :
  symbol_with_name E [symbol] = sn :: others ->
  1 <= Py.len (DATE (data s)) ->
  1 <= Py.len (fin_DATE (fst (DS_FINANCE (data s)))) ->
  1 <= Py.len (CLOSE2 (data s)) ->
  1 <= Py.len (EPS (data s)) ->
  1 <= Py.len (EPSU (data s)) ->
  1 <= Py.len (ROE (data s)) ->
  let m := month (fromtimestamp E
                    (div_1e9 (back 0 1 (fin_DATE (fst (DS_FINANCE (data s))))))) in
  m <> 3 -> m <> 6 -> m <> 9 -> m <> 12 ->
  fin_ratio E (data s) = S754_zero false /\
  exists out,
    build_basic_data E symbol s = (Ok tt, emit s out) /\
    In (pe_line E (data s)) out /\
    In (pb_line E (data s)) out /\
    render_line (pe_line E (data s))
    = ("- 市盈率: "
       ++ zero_text (F64.div (last_of (CLOSE2 (data s))) (last_of (EPS (data s)))))%string /\
    render_line (pb_line E (data s))
    = ("- 市净率: "
       ++ zero_text (F64.div (last_of (CLOSE2 (data s))) (last_of (EPSU (data s)))))%string.
Proof.
  intros Hl Hd Hf Hc He Hu Hr m H3 H6 H9 H12.
  assert (Hz : fin_ratio E (data s) = S754_zero false).
  { unfold fin_ratio. now apply est_fin_ratio_other. }
  split; [exact Hz |].
  exists (basic_lines E (data s) sn). split; [| split; [| split; [| split]]].
  - now apply (build_basic_data_run E symbol s sn others).
  - cbn. tauto.
  - cbn. tauto.
  - unfold pe_line. rewrite Hz. unfold render_line. cbn [map render_piece String.concat].
    rewrite format_times_zero. reflexivity.
  - unfold pb_line. rewrite Hz. unfold render_line. cbn [map render_piece String.concat].
    rewrite format_times_zero. reflexivity.
Qed.

Lemma bind_ret {A B} (a : A) (f : A -> M B) s : bind (ret a) f s = f a s.
Proof. reflexivity. Qed.

Lemma reported_windows_nil N : N < 5 -> reported_windows N = [].
Proof.
  intros H. unfold reported_windows, canonical_periods. cbn [filter].
  repeat match goal with
         | |- context [?k <=? N] =>
             replace (k <=? N) with false by (symmetry; apply Z.leb_gt; lia)
         end.
  reflexivity.
Qed.

(** ** The exceptions the builders end with *)

(** Every exception the computation can end with satisfies [Q]. *)
Definition fails_only {A} (Q : exn -> Prop) (m : M A) : Prop :=
  forall s e, fst (m s) = Raise e -> Q e.

Section FailsOnly.
Context (Q : exn -> Prop).

Lemma fails_only_ret {A} (a : A) : fails_only Q (ret a).
Proof. intros s e H. discriminate. Qed.

Lemma fails_only_read {A} (k : bundle -> A) : fails_only Q (read k).
Proof. intros s e H. discriminate. Qed.

Lemma fails_only_print l : fails_only Q (print l).
Proof. intros s e H. discriminate. Qed.

Lemma fails_only_getvalue : fails_only Q getvalue.
Proof. intros s e H. discriminate. Qed.

Lemma fails_only_bind {A B} (m : M A) (f : A -> M B) :
  fails_only Q m -> (forall a, fails_only Q (f a)) -> fails_only Q (bind m f).
Proof.
  intros Hm Hf s e. unfold bind.
  specialize (Hm s). destruct (m s) as [[a | e'] s1]; cbn in *.
  - apply Hf.
  - intros [= <-]. now apply Hm.
Qed.

(** After a successful step its result is known to the rest. *)
Lemma fails_only_bind_lift {A B} (r : result A) (f : A -> M B) :
  (forall e, r = Raise e -> Q e) ->
  (forall a, r = Ok a -> fails_only Q (f a)) ->
  fails_only Q (bind (lift r) f).
Proof.
  intros Hr Hf s e. unfold bind, lift. destruct r as [a | e'].
  - now apply Hf.
  - cbn. intros [= <-]. now apply Hr.
Qed.

Lemma fails_only_lift {A} (r : result A) :
  (forall e, r = Raise e -> Q e) -> fails_only Q (lift r).
Proof. intros Hr s e H. now apply Hr. Qed.

Lemma fails_only_for_each {A} (xs : list A) (body : A -> M unit) :
  (forall x, In x xs -> fails_only Q (body x)) -> fails_only Q (for_each xs body).
Proof.
  induction xs as [| x xs IH]; intros Hb; cbn [for_each].
  - apply fails_only_ret.
  - apply fails_only_bind; [apply Hb; now left | intros _; apply IH].
    intros y Hy. apply Hb. now right.
Qed.

Lemma fails_only_fold_M {A B} (body : B -> A -> M B) (xs : list A) :
  (forall b x, fails_only Q (body b x)) -> forall acc, fails_only Q (fold_M body xs acc).
Proof.
  intros Hb. induction xs as [| x xs IH]; intros acc; cbn [fold_M].
  - apply fails_only_ret.
  - apply fails_only_bind; auto.
Qed.

End FailsOnly.

Lemma getitem_raises {A} (l : list A) (i : Z) e :
  Py.getitem l i = Raise e -> e = IndexError.
Proof.
  destruct (getitem_cases l i) as [H | [x H]]; rewrite H; congruence.
Qed.

Lemma getitem_ok_nonempty {A} (l : list A) (i : Z) x :
  Py.getitem l i = Ok x -> 0 < Py.len l.
Proof.
  destruct l; [now rewrite getitem_nil | intros _; unfold Py.len; cbn; lia].
Qed.

Lemma map_result_raises {A B} (f : A -> result B) (l : list A) (Q : exn -> Prop) :
  (forall x e, f x = Raise e -> Q e) ->
  forall e, Py.map_result f l = Raise e -> Q e.
Proof.
  intros Hf. induction l as [| x l IH]; cbn [Py.map_result]; intros e; [discriminate |].
  destruct (f x) as [y | e'] eqn:Hx; [| intros [= <-]; eauto].
  destruct (Py.map_result f l) as [ys | e'']; [discriminate |].
  intros [= <-]. now apply IH.
Qed.

(** A slice from the end of a series that is not empty is not empty. *)
Lemma slice_from_nonempty {A} (l : list A) (p : Z) :
  0 < Py.len l -> 0 < p -> 0 < Py.len (Py.slice_from l (- p)).
Proof.
  intros Hl Hp. destruct (Z_le_gt_dec p (Py.len l)) as [Hle | Hgt].
  - rewrite slice_from_last_n, last_n_length by lia. exact Hp.
  - rewrite slice_from_short by lia. exact Hl.
Qed.

Ltac fails_step :=
  first
    [ apply fails_only_ret | apply fails_only_read | apply fails_only_print
    | apply fails_only_getvalue
    | apply fails_only_bind_lift; [intros ? ? | intros ? ?]
    | apply fails_only_bind; [| intros ? ]
    | apply fails_only_for_each; intros ? ?
    | apply fails_only_fold_M; intros ? ? ].

Section OnlyIndexError.
Variable E : externals.
Variable symbol : string.

Let Q : exn -> Prop := fun e => e = IndexError.

Lemma build_basic_data_fails : fails_only Q (build_basic_data E symbol).
Proof.
  unfold build_basic_data.
  repeat first [ eapply getitem_raises; eassumption | fails_step ].
Qed.

Lemma build_trading_data_fails : fails_only Q (build_trading_data E symbol).
Proof.
  unfold build_trading_data.
  repeat first
    [ eapply getitem_raises; eassumption
    | match goal with
      | Hx : In ?p (filter _ canonical_periods),
        Hr : amax E (Py.slice_from ?l (- ?p)) = Raise _,
        Hl : Py.getitem ?l _ = Ok _ |- _ =>
          exfalso; apply filter_In in Hx; destruct Hx as [Hx _];
          apply canonical_periods_ge in Hx; apply getitem_ok_nonempty in Hl;
          rewrite amax_ok in Hr by (apply slice_from_nonempty; lia); discriminate
      | Hx : In ?p (filter _ canonical_periods),
        Hr : amin E (Py.slice_from ?l (- ?p)) = Raise _,
        Hl : Py.getitem ?l _ = Ok _ |- _ =>
          exfalso; apply filter_In in Hx; destruct Hx as [Hx _];
          apply canonical_periods_ge in Hx; apply getitem_ok_nonempty in Hl;
          rewrite amin_ok in Hr by (apply slice_from_nonempty; lia); discriminate
      end
    | fails_step ].
Qed.

Lemma build_technical_data_fails : fails_only Q (build_technical_data E symbol).
Proof.
  unfold build_technical_data. do 3 (apply fails_only_bind; [apply fails_only_read | intros ?]).
  destruct (Py.len _ <? 30); [apply fails_only_ret |].
  unfold technical_row.
  repeat first
    [ eapply getitem_raises; eassumption
    | match goal with
      | H : Py.map_result _ _ = Raise _ |- _ =>
          revert H; apply map_result_raises; intros ? ?; apply getitem_raises
      end
    | fails_step ].
Qed.

Lemma build_financial_data_fails : fails_only Q (build_financial_data E symbol).
Proof.
  unfold build_financial_data, financial_line, row_get.
  repeat first
    [ eapply getitem_raises; eassumption
    | match goal with
      | H : Py.map_result _ _ = Raise _ |- _ =>
          revert H; apply map_result_raises; first
            [ intros ? ?; apply getitem_raises
            | intros [[? ?] ?] ?;
              match goal with
              | |- context [Py.getitem ?l ?i] =>
                  destruct (Py.getitem l i) eqn:Hg;
                  [ discriminate | intros [= <-]; exact (getitem_raises _ _ _ Hg) ]
              end ]
      | |- fails_only _ (financial_step _ _ ?acc _) =>
          unfold financial_step; destruct acc as [? ?]
      | |- fails_only _ (if ?c then _ else _) => destruct c
      end
    | fails_step ].
Qed.

End OnlyIndexError.

Lemma build_trading_data_short (E : externals) (symbol : string) (s : state) :
  Py.len (CLOSE (data s)) < 2 ->
  fst (build_trading_data E symbol s) = Raise IndexError.
Proof.
  intros H. unfold build_trading_data. rewrite !bind_read.
  change (filter (fun n => n <=? Py.len (CLOSE (data s))) canonical_periods)
    with (reported_windows (Py.len (CLOSE (data s)))).
  rewrite reported_windows_nil by lia.
  change (Py.getitem (CLOSE (data s)) (-2)) with (Py.getitem (CLOSE (data s)) (- (2))).
  rewrite (getitem_short (CLOSE (data s)) 2 H).
  repeat first
    [ rewrite bind_print
    | rewrite bind_ret
    | rewrite bind_lift_ok
    | rewrite bind_lift_raise; reflexivity
    | progress cbn [for_each]
    | match goal with
      | |- context [lift (Py.getitem ?l ?i)] =>
          let Hr := fresh "Hr" in
          destruct (getitem_cases l i) as [Hr | [? Hr]]; rewrite Hr
      end ].
Qed.

(** C6 (amended). With fewer than two observations in the close series the
    trading-data section ends with IndexError, whatever the stream holds
    when it starts, and so does the whole report: [build_stock_data]
    returns no text. *)
Theorem short_series_index_error
  (E : externals) (symbol : string) (raw_data : bundle) :
  Py.len (CLOSE raw_data) < 2 ->
  (forall s, data s = raw_data ->
             fst (build_trading_data E symbol s) = Raise IndexError) /\
  fst (build_stock_data E symbol raw_data) = Raise IndexError.
Proof.
  intros H. split.
  - intros s <-. now apply build_trading_data_short.
  - unfold build_stock_data, build_sections.
    set (s0 := {| fp := []; data := raw_data |}).
    pose proof (build_basic_data_fails E symbol s0) as Hf.
    destruct (build_basic_data_writes E symbol s0) as (ls & Hs & _).
    unfold bind at 1 2.
    destruct (build_basic_data E symbol s0) as [[[] | e] s1]; cbn in Hs, Hf |- *.
    + subst s1. unfold bind at 1.
      pose proof (build_trading_data_short E symbol (emit s0 ls) H) as Ht.
      destruct (build_trading_data E symbol (emit s0 ls)) as [r s2].
      cbn in Ht. now rewrite Ht.
    + now rewrite (Hf e eq_refl).
Qed.

(** ** The technical-indicator section in closed form *)

Lemma getitem_neg {A} (d : A) (l : list A) (i : Z) :
  i < 0 -> - i <= Py.len l -> Py.getitem l i = Ok (back d (- i) l).
Proof.
  intros Hi Hl. rewrite <- (Z.opp_involutive i) at 1.
  apply getitem_back. lia.
Qed.

Lemma map_result_ok {A B} (f : A -> result B) (g : A -> B) (l : list A) :
  (forall x, In x l -> f x = Ok (g x)) -> Py.map_result f l = Ok (map g l).
Proof.
  induction l as [| x l IH]; intros H; cbn [Py.map_result map]; [reflexivity |].
  rewrite (H x (or_introl eq_refl)), IH; [reflexivity |].
  intros y Hy. apply H. now right.
Qed.

Lemma shown_range N :
  1 <= N ->
  Py.range (-1) (Z.max (- N) (-31)) (-1) = map Z.opp (shown_rows N).
Proof.
  intros H. rewrite range_down. unfold shown_rows. rewrite map_map.
  replace (Z.to_nat (-1 - Z.max (- N) (-31))) with (Z.to_nat (Z.min 30 (N - 1))) by lia.
  apply map_ext. intros k. lia.
Qed.

Lemma shown_rows_bounds N k : In k (shown_rows N) -> 1 <= k <= N - 1 /\ k <= 30.
Proof.
  unfold shown_rows. rewrite in_map_iff. intros (j & <- & Hj).
  apply in_seq in Hj. lia.
Qed.

Lemma shown_rows_length N : 1 <= N -> Py.len (shown_rows N) = Z.min 30 (N - 1).
Proof.
  intros H. unfold shown_rows, Py.len. rewrite length_map, length_seq. lia.
Qed.

Lemma for_each_map {A B} (h : A -> B) (xs : list A) (body : B -> M unit) :
  for_each (map h xs) body = for_each xs (fun x => body (h x)).
Proof. induction xs as [| x xs IH]; cbn; [reflexivity | now rewrite IH]. Qed.

Lemma flat_map_singleton {A B} (g : A -> B) (xs : list A) :
  flat_map (fun x => [g x]) xs = map g xs.
Proof. induction xs as [| x xs IH]; cbn; [reflexivity | now rewrite IH]. Qed.

Section TechnicalRun.
Variable E : externals.
Variable symbol : string.
Variable s : state.
Variable N : Z.
Hypothesis close_len : Py.len (CLOSE (data s)) = N.
Hypothesis date_len : Py.len (DATE (data s)) = N.
Hypothesis columns_len : full_length E (data s).

Lemma build_technical_data_skip :
  N < 30 -> build_technical_data E symbol s = (Ok tt, s).
Proof.
  intros H. unfold build_technical_data. rewrite !bind_read, close_len.
  replace (N <? 30) with true by (symmetry; apply Z.ltb_lt; lia).
  reflexivity.
Qed.

Lemma build_technical_data_run :
  30 <= N ->
  build_technical_data E symbol s = (Ok tt, emit s (technical_lines E (data s))).
Proof.
  intros H. unfold build_technical_data. rewrite !bind_read, close_len.
  replace (N <? 30) with false by (symmetry; apply Z.ltb_ge; lia).
  rewrite !bind_print, bind_read. cbn [data emit]. rewrite !bind_print.
  fold (date_column E (data s)).
  assert (Hd : Py.len (date_column E (data s)) = N).
  { unfold date_column, Py.len. rewrite length_map. exact date_len. }
  rewrite Hd, shown_range, for_each_map by lia.
  rewrite (bind_for_each_emit
             (fun k => [technical_line (date_column E (data s))
                          (indicator_columns E (CLOSE (data s)) (HIGH (data s))
                             (LOW (data s))) k])).
  2:{ intros k Hk s0. apply shown_rows_bounds in Hk. unfold technical_row.
      rewrite (getitem_neg EmptyString) by lia. rewrite bind_lift_ok.
      rewrite (map_result_ok _ (fun c => back F64.nan (- - k) (snd c))).
      - rewrite bind_lift_ok, print_run, Z.opp_involutive. reflexivity.
      - intros c Hc. apply getitem_neg; [lia |].
        unfold full_length in columns_len. rewrite Forall_forall in columns_len.
        rewrite (columns_len c Hc), close_len. lia. }
  rewrite print_run, !emit_emit, flat_map_singleton.
  unfold technical_lines. rewrite date_len.
  f_equal; rewrite <- ?app_assoc; reflexivity.
Qed.

End TechnicalRun.

(** ** The fundamentals section: the walk over the reporting dates *)

Section WalkFacts.
Variable E : externals.
Variable fin : finance.

Lemma walked_bounds i : In i (walked fin) -> 1 <= i < Py.len (fin_DATE fin).
Proof.
  unfold walked. rewrite range_down, in_map_iff. intros (k & <- & Hk).
  apply in_seq in Hk. lia.
Qed.

Lemma financial_step_skip rows years i s :
  0 <= i < Py.len (fin_DATE fin) ->
  (year_end E fin) i = false \/ 5 <= years ->
  financial_step E fin (rows, years) i s = (Ok (rows, years), s).
Proof.
  intros Hi Hs. unfold financial_step.
  rewrite (getitem_nonneg 0) by exact Hi. rewrite bind_lift_ok.
  fold ((report_date E fin) i). fold ((year_end E fin) i).
  destruct Hs as [-> | Hy]; [reflexivity |].
  replace (max_years <=? years) with true
    by (symmetry; apply Z.leb_le; unfold max_years; lia).
  now rewrite orb_true_r.
Qed.

Lemma financial_step_collect rows years i s :
  0 <= i < Py.len (fin_DATE fin) ->
  (year_end E fin) i = true -> years < 5 ->
  (forall f, In f fields -> i < Py.len (snd (fst f) fin)) ->
  financial_step E fin (rows, years) i s = (Ok (rows ++ [(row_at E fin) i], years + 1), s).
Proof.
  intros Hi Hd Hy Hf. unfold financial_step.
  rewrite (getitem_nonneg 0) by exact Hi. rewrite bind_lift_ok.
  fold ((report_date E fin) i). fold ((year_end E fin) i). rewrite Hd.
  replace (max_years <=? years) with false
    by (symmetry; apply Z.leb_gt; unfold max_years; lia).
  cbn [negb orb].
  rewrite (map_result_ok _
             (fun f : string * (finance -> list float) * Z =>
                F64.div (nth (Z.to_nat i) (snd (fst f) fin) F64.nan) (F64.of_Z (snd f)))).
  - reflexivity.
  - intros [[name field] dv] Hin. cbn [fst snd].
    rewrite (getitem_nonneg F64.nan); [reflexivity |].
    specialize (Hf _ Hin). cbn [fst snd] in Hf. lia.
Qed.

Lemma fold_financial_step idx : forall rows years s,
  (forall i, In i idx -> 0 <= i < Py.len (fin_DATE fin)) ->
  fields_cover E fin idx ->
  0 <= years ->
  let taken := firstn (Z.to_nat (5 - years)) (filter (year_end E fin) idx) in
  fold_M (financial_step E fin) idx (rows, years) s
  = (Ok (rows ++ map (row_at E fin) taken, years + Py.len taken), s).
Proof.
  induction idx as [| i idx IH]; intros rows years s Hb Hc Hy taken; subst taken.
  - cbn. rewrite firstn_nil. cbn. now rewrite app_nil_r, Z.add_0_r.
  - cbn [fold_M filter].
    assert (Hb' : forall j, In j idx -> 0 <= j < Py.len (fin_DATE fin))
      by (intros; apply Hb; now right).
    assert (Hc' : fields_cover E fin idx)
      by (intros j f Hj; apply Hc; now right).
    destruct ((year_end E fin) i) eqn:Hd; [destruct (Z_lt_le_dec years 5) as [Hlt | Hge] |].
    + rewrite (bind_ok _ _ _ _ _ (financial_step_collect rows years i s
                 (Hb i (or_introl eq_refl)) Hd Hlt
                 (fun f Hf => Hc i f (or_introl eq_refl) Hd Hf))).
      rewrite IH by (auto; lia).
      replace (Z.to_nat (5 - years)) with (S (Z.to_nat (5 - (years + 1)))) by lia.
      cbn [firstn map]. rewrite <- app_assoc. cbn [app].
      do 3 f_equal. unfold Py.len. cbn [List.length]. lia.
    + rewrite (bind_ok _ _ _ _ _ (financial_step_skip rows years i s
                 (Hb i (or_introl eq_refl)) (or_intror Hge))).
      rewrite IH by auto.
      replace (Z.to_nat (5 - years)) with 0%nat by lia. reflexivity.
    + rewrite (bind_ok _ _ _ _ _ (financial_step_skip rows years i s
                 (Hb i (or_introl eq_refl)) (or_introl Hd))).
      now rewrite IH by auto.
Qed.

Lemma walk_result s :
  fields_cover E fin (walked fin) ->
  fold_M (financial_step E fin) (walked fin) ([], 0) s
  = (Ok (map (row_at E fin) (collected E fin), Py.len (collected E fin)), s).
Proof.
  intros Hc.
  rewrite fold_financial_step; [reflexivity | | exact Hc | lia].
  intros i Hi. apply walked_bounds in Hi. lia.
Qed.

End WalkFacts.

Section FinancialRun.
Variable E : externals.
Variable symbol : string.
Variable s : state.

Let fin : finance := fst (DS_FINANCE (data s)).

(** The year columns of the table are the rows collected by the walk over
    the indices from the last one down to 1. *)
Lemma financial_columns :
  fields_cover E fin (walked fin) ->
  exists rest,
    snd (build_financial_data E symbol s)
    = emit s ([ [Text "# 财务数据"]; blank;
                header_line (map (row_at E fin) (collected E fin)) ] ++ rest).
Proof.
  intros Hc. unfold build_financial_data.
  rewrite bind_read, !bind_print. fold fin. fold (walked fin).
  rewrite (bind_ok _ _ _ _ _ (walk_result E fin _ Hc)). cbn [fst].
  rewrite bind_print. fold (header_line (map (row_at E fin) (collected E fin))).
  match goal with |- context [snd (?k ?s')] =>
    assert (W : writes number_format_ok k) end.
  { repeat first [ apply financial_line_writes | writes_step
                 | apply writes_print; right; reflexivity ]. }
  match goal with |- context [snd (?k ?s')] =>
    destruct (W s') as (rest & -> & _) end.
  exists rest. now rewrite !emit_emit.
Qed.

Lemma no_year_end_collected :
  (forall t, In t (fin_DATE fin) -> month (fromtimestamp E (div_1e9 t)) <> 12) ->
  filter (year_end E fin) (walked fin) = [].
Proof.
  intros H.
  assert (F : forall idx, (forall i, In i idx -> year_end E fin i = false) ->
                          filter (year_end E fin) idx = []).
  { induction idx as [| i idx IH]; intros Hf; [reflexivity |]. cbn [filter].
    rewrite (Hf i (or_introl eq_refl)). apply IH. intros; apply Hf; now right. }
  apply F. intros i Hi. apply walked_bounds in Hi.
  unfold year_end, report_date. apply Z.eqb_neq, H, nth_In.
  unfold Py.len in Hi. lia.
Qed.

Lemma build_financial_data_no_rows :
  filter (year_end E fin) (walked fin) = [] ->
  build_financial_data E symbol s
  = (Raise IndexError,
     emit s [ [Text "# 财务数据"]; blank; [Text "| 指标 | "]; [Text "| --- |"] ]).
Proof.
  intros Hn. unfold build_financial_data.
  rewrite bind_read, !bind_print. fold fin. fold (walked fin).
  assert (Hc : fields_cover E fin (walked fin)).
  { intros i f Hi Hd. exfalso.
    assert (Hin : In i (filter (year_end E fin) (walked fin)))
      by (apply filter_In; now split).
    rewrite Hn in Hin. exact Hin. }
  rewrite (bind_ok _ _ _ _ _ (walk_result E fin _ Hc)).
  unfold collected. rewrite Hn. cbn [firstn map fst].
  rewrite !bind_print. change (Py.getitem [] 0) with (@Raise fin_row IndexError).
  rewrite bind_lift_raise, !emit_emit. reflexivity.
Qed.

End FinancialRun.

(** C3. When no reporting date of the fundamentals falls in December, the
    fundamentals section is not omitted: it prints its title and an empty
    table header and then ends with IndexError. *)
Theorem no_year_end_rows_index_error (E : externals) (symbol : string) (s : state) :
  (forall t, In t (fin_DATE (fst (DS_FINANCE (data s)))) ->
             month (fromtimestamp E (div_1e9 t)) <> 12) ->
  build_financial_data E symbol s
  = (Raise IndexError,
     emit s [ [Text "# 财务数据"]; blank; [Text "| 指标 | "]; [Text "| --- |"] ]).
Proof.
  intros H. apply build_financial_data_no_rows.
  now apply no_year_end_collected.
Qed.

(** ** The formats of the floats, place by place *)


















Section Formats.
Variable E : externals.
Variable symbol : string.









End Formats.


(** ** The whole report *)

(** C9. Whatever the bundle and however the call ends, the bundle held by
    the state after [build_stock_data] is the bundle it was given. *)
Theorem bundle_unchanged (E : externals) (symbol : string) (raw_data : bundle) :
  data (snd (build_stock_data E symbol raw_data)) = raw_data.
Proof.
  destruct (build_stock_data_writes E symbol raw_data) as (ls & Hs & _).
  now rewrite Hs.
Qed.


(** ** Runs on the sample bundles *)

(** The conversion of the sample environment rounds as the division and
    the library do: the nanosecond before 2024 begins in local time has no
    float64 of its own, and its quotient by 1e9 is the first second of the
    new year; one second earlier the date is still in December. *)
Lemma last_nanosecond_of_the_year :
  fromtimestamp Sample.env (div_1e9 1704038399999999999)
  = {| year := 2024; month := 1; day := 1 |} /\
  fromtimestamp Sample.env (div_1e9 1704038399000000000)
  = {| year := 2023; month := 12; day := 31 |}.
Proof. vm_compute. split; reflexivity. Qed.

Lemma window_figures_witness :
  exists out,
    snd (build_trading_data Sample.env sample_symbol (start thirty_days))
    = emit (start thirty_days) out /\
    incl (window_lines Sample.env thirty_days 20) out.
Proof.
  destruct (window_figures_of_last_elements Sample.env sample_symbol
              (start thirty_days) 30 eq_refl eq_refl eq_refl eq_refl eq_refl)
    as (out & Hout & Hw).
  exists out. split; [exact Hout |].
  apply (Hw 20); [cbn; tauto | lia].
Defined.

(** C2 at thirty observations: the report completes and its indicator
    table has 29 data rows. *)
Theorem thirty_observations_29_rows :
  Py.len (CLOSE thirty_days) = 30 /\
  (exists text, fst (build_stock_data Sample.env sample_symbol thirty_days) = Ok text) /\
  List.length
    (filter is_technical_row
       (fp (snd (build_stock_data Sample.env sample_symbol thirty_days)))) = 29%nat.
Proof.
  split; [reflexivity | split].
  - eexists. vm_compute. reflexivity.
  - vm_compute. reflexivity.
Qed.

Lemma no_year_end_rows_witness :
  build_financial_data Sample.env sample_symbol (start no_year_end)
  = (Raise IndexError,
     emit (start no_year_end)
       [ [Text "# 财务数据"]; blank; [Text "| 指标 | "]; [Text "| --- |"] ]).
Proof.
  apply (no_year_end_rows_index_error Sample.env sample_symbol (start no_year_end)).
  intros t [<- | []]. vm_compute. discriminate.
Defined.

(** The whole report of the bundle without a December report fails. *)
Lemma no_year_end_report_fails :
  fst (build_stock_data Sample.env sample_symbol no_year_end) = Raise IndexError.
Proof. vm_compute. reflexivity. Qed.

(** C4 on a history with December reports at indices 0 and 2: both are
    year-end rows of the history, and the table has the one column of 2023. *)
Theorem oldest_year_end_row_skipped :
  let fin := fst (DS_FINANCE thirty_days) in
  let doc := fp (snd (build_stock_data Sample.env sample_symbol thirty_days)) in
  year_end_rows Sample.env fin = [2; 0] /\
  collected Sample.env fin = [2] /\
  has_text "| 指标 | 2023年度 |" doc = true /\
  has_text "| 指标 | 2023年度 | 2022年度 |" doc = false.
Proof. vm_compute. repeat split; reflexivity. Qed.

Lemma short_series_witness :
  fst (build_stock_data Sample.env sample_symbol one_day) = Raise IndexError.
Proof.
  apply (short_series_index_error Sample.env sample_symbol one_day).
  vm_compute. reflexivity.
Defined.

(** C6 as stated fails: with one observation the report ends with the index
    fault itself, raised by the trading-data section. *)
Lemma one_observation_index_fault :
  Py.len (CLOSE one_day) = 1 /\
  fst (build_trading_data Sample.env sample_symbol (start one_day)) = Raise IndexError /\
  fst (build_stock_data Sample.env sample_symbol one_day) = Raise IndexError.
Proof. vm_compute. repeat split; reflexivity. Qed.

Lemma earnings_ratio_figure_witness :
  exists out,
    build_basic_data Sample.env sample_symbol (start september_report)
    = (Ok tt, emit (start september_report) out) /\
    nth_error out 6
    = Some [Text "- 市盈率: ";
            Num (Fixed 2)
              (F64.mul (F64.div (F64.of_Z 10) (F64.of_Z 100)) (F64.of_scaled 3 (-2)))].
Proof.
  assert (H1 : 1 <= Py.len (DATE (data (start september_report))))
    by (vm_compute; discriminate).
  assert (H2 : 1 <= Py.len (fin_DATE (fst (DS_FINANCE (data (start september_report))))))
    by (vm_compute; discriminate).
  assert (H3 : 1 <= Py.len (CLOSE2 (data (start september_report))))
    by (vm_compute; discriminate).
  exact (earnings_ratio_figure Sample.env sample_symbol (start september_report)
           (sample_symbol, sample_symbol) [] eq_refl H1 H2 H3 H3 H3 H3).
Defined.

(** C7 as stated fails: with the latest report in September, a price of 10,
    per-share earnings of 100, an EPSU of 4 and a per-share net asset value
    of 5, the report prints 0.08 where price x ratio / earnings gives 0.07,
    and it prints 1.88 where price x ratio / book value gives 1.50. *)
Lemma september_ratio_figures :
  let b := september_report in
  let doc := fp (snd (build_stock_data Sample.env sample_symbol b)) in
  let price := last_of (CLOSE2 b) in
  let ratio := fin_ratio Sample.env b in
  let book_value := last_of (fin_NAVPS (fst (DS_FINANCE b))) in
  (exists text, fst (build_stock_data Sample.env sample_symbol b) = Ok text) /\
  is_fraction ratio 3 4 = true /\
  has_text "- 市盈率: 0.08" doc = true /\
  Fmt.format (Fixed 2) (worded_ratio price ratio (last_of (EPS b))) = "0.07"%string /\
  has_text "- 市盈率: 0.07" doc = false /\
  has_text "- 市净率: 1.88" doc = true /\
  Fmt.format (Fixed 2) (worded_ratio price ratio book_value) = "1.50"%string /\
  has_text "- 市净率: 1.50" doc = false.
Proof.
  split; [eexists; vm_compute; reflexivity |].
  vm_compute. repeat split; reflexivity.
Qed.

(** The places of the report of thirty observations: today's figures of
    the five subsections. *)
Lemma thirty_days_places :
  let doc := fp (snd (build_stock_data Sample.env sample_symbol thirty_days)) in
  let at_ (n : nat) :=
    option_map (fun kl => (fst kl, render_line (snd kl)))
      (nth_error (placed Plain doc) n) in
  at_ 10%nat = Some (Prices, "- 当日: 10.000 最高: 11.000 最低: 9.000"%string) /\
  at_ 14%nat = Some (Amplitude, "- 当日: 22.22%"%string) /\
  at_ 18%nat = Some (Change, "- 当日: 0.00%"%string) /\
  at_ 19%nat = Some (Change, "- 5日累计: 0.00%"%string) /\
  at_ 22%nat = Some (Volume, "- 当日: 1.00"%string) /\
  at_ 26%nat = Some (Turnover, "- 当日: 1.00%"%string).
Proof. vm_compute. repeat split; reflexivity. Qed.


Lemma zero_ratio_figures_witness :
  render_line (pe_line Sample.env january_report) = "- 市盈率: -0.00"%string.
Proof.
  assert (H1 : 1 <= Py.len (DATE (data (start january_report))))
    by (vm_compute; discriminate).
  assert (H2 : 1 <= Py.len (fin_DATE (fst (DS_FINANCE (data (start january_report))))))
    by (vm_compute; discriminate).
  assert (H3 : 1 <= Py.len (CLOSE2 (data (start january_report))))
    by (vm_compute; discriminate).
  pose proof (zero_ratio_figures Sample.env sample_symbol (start january_report)
                (sample_symbol, sample_symbol) [] eq_refl H1 H2 H3 H3 H3 H3) as H.
  cbv zeta in H.
  assert (M : forall k, k <> 1 ->
            month (fromtimestamp Sample.env
                     (div_1e9 (back 0 1 (fin_DATE (fst (DS_FINANCE
                                                          (data (start january_report)))))))) <> k).
  { intros k Hk. vm_compute. intros Heq. apply Hk. now rewrite <- Heq. }
  destruct (H (M 3 ltac:(discriminate)) (M 6 ltac:(discriminate))
              (M 9 ltac:(discriminate)) (M 12 ltac:(discriminate)))
    as (_ & out & _ & _ & _ & Hpe & _).
  exact Hpe.
Defined.

(** C10 as stated fails: with the latest report in January and negative
    earnings the price-to-earnings figure is printed as -0.00. *)
Lemma negative_earnings_minus_zero :
  let b := january_report in
  let doc := fp (snd (build_stock_data Sample.env sample_symbol b)) in
  month (fromtimestamp Sample.env
           (div_1e9 (back 0 1 (fin_DATE (fst (DS_FINANCE b)))))) = 1 /\
  has_text "- 市盈率: -0.00" doc = true /\
  has_text "- 市盈率: 0.00" doc = false.
Proof. vm_compute. repeat split; reflexivity. Qed.

(** * Further properties of research.py *)

(** ** filter_sector *)

(** [k] occurs in [s]: some text stands before it and some after it. *)
Definition occurs_in (k s : string) : Prop :=
  exists pre post, s = (pre ++ k ++ post)%string.

Lemma prefix_spec k : forall s,
  String.prefix k s = true <-> exists post, s = (k ++ post)%string.
Proof.
  induction k as [| c k IH]; intros s.
  - split; [intros _; now exists s | intros _; now destruct s].
  - destruct s as [| c' s]; cbn;
      [split; [discriminate | intros (p & Hp); discriminate] |].
    destruct (ascii_dec c c') as [-> | Hne].
    + rewrite IH. split; intros (p & Hp); exists p; [now rewrite Hp | now injection Hp].
    + split; [discriminate | intros (p & Hp); injection Hp as Hc _; congruence].
Qed.

Lemma contains_spec k : forall s, Py.contains k s = true <-> occurs_in k s.
Proof.
  induction s as [| c s IH]; cbn [Py.contains]; rewrite orb_true_iff, prefix_spec.
  - split.
    + intros [(post & Hp) | Hf]; [| discriminate]. now exists EmptyString, post.
    + intros (pre & post & Hp). left.
      destruct pre; [now exists post | discriminate].
  - rewrite IH. split.
    + intros [(post & Hp) | (pre & post & Hp)].
      * now exists EmptyString, post.
      * exists (String c pre), post. cbn. now rewrite Hp.
    + intros (pre & post & Hp). destruct pre as [| c' pre].
      * left. now exists post.
      * right. injection Hp as _ Hp. now exists pre, post.
Qed.

(** X1. A label is kept by filter_sector exactly when it is a label of the
    input in which none of the five keywords occurs. *)
Theorem filter_sector_keeps (sectors : list string) (x : string) :
  In x (filter_sector sectors) <->
  In x sectors /\ forall k, In k keywords -> ~ occurs_in k x.
Proof.
  unfold filter_sector. rewrite filter_In, negb_true_iff.
  split; intros [Hin Hk]; split; try exact Hin.
  - intros k Hkw Hocc. apply contains_spec in Hocc.
    assert (Ht : existsb (fun k => Py.contains k x) keywords = true)
      by (apply existsb_exists; eauto).
    congruence.
  - destruct (existsb _ keywords) eqn:He; [| reflexivity].
    apply existsb_exists in He. destruct He as (k & Hkw & Hc).
    apply contains_spec in Hc. now destruct (Hk k Hkw).
Qed.

(** ** The only exception of the report is IndexError *)

(** X2. On a bundle that holds every key the report subscripts, with
    [_DS_FINANCE] a pair (the shape the record [bundle] fixes), a call of
    [build_stock_data] either returns the text of the report or ends with
    IndexError: of the statements of research.py only the subscripts of
    sequences fail there, and the maximum and minimum are never taken of an
    empty slice. The KeyError of a missing key and the exceptions of the
    libraries are not part of this statement. *)
Theorem report_returns_or_index_error
  (E : externals) (symbol : string) (raw_data : bundle) :
  (exists text, fst (build_stock_data E symbol raw_data) = Ok text) \/
  fst (build_stock_data E symbol raw_data) = Raise IndexError.
Proof.
  assert (F : fails_only (fun e => e = IndexError) (build_sections E symbol ;; getvalue)).
  { unfold build_sections.
    repeat first
      [ apply build_basic_data_fails | apply build_trading_data_fails
      | apply build_technical_data_fails | apply build_financial_data_fails
      | fails_step ]. }
  unfold build_stock_data.
  specialize (F {| fp := []; data := raw_data |}).
  destruct (fst _) as [text | e]; [left; eauto | right].
  now rewrite (F e eq_refl).
Qed.

(** ** The basic-facts section *)

Lemma getitem_ok_not_nil {A} (l : list A) (i : Z) x : Py.getitem l i = Ok x -> l <> [].
Proof. intros H ->. now rewrite getitem_nil in H. Qed.

Lemma build_basic_data_ok_nonempty (E : externals) (symbol : string) (s : state) :
  fst (build_basic_data E symbol s) = Ok tt ->
  symbol_with_name E [symbol] <> [] /\
  DATE (data s) <> [] /\
  fin_DATE (fst (DS_FINANCE (data s))) <> [] /\
  CLOSE2 (data s) <> [] /\
  EPS (data s) <> [] /\
  EPSU (data s) <> [] /\
  ROE (data s) <> [].
Proof.
  unfold build_basic_data.
  repeat first
    [ rewrite bind_print
    | rewrite bind_read; cbn [data emit]
    | rewrite bind_lift_ok
    | rewrite bind_lift_raise; discriminate
    | match goal with
      | |- context [lift (Py.getitem ?l ?i)] =>
          let Hr := fresh "Hr" in
          destruct (getitem_cases l i) as [Hr | [? Hr]]; rewrite Hr;
          [| apply getitem_ok_not_nil in Hr]
      end ].
  intros _. repeat split; assumption.
Qed.

Lemma basic_section_run_helper
  (E : externals) (symbol : string) (s : state)
  (sn : string * string) (others : list (string * string)) :
  symbol_with_name E [symbol] = sn :: others ->
  1 <= Py.len (DATE (data s)) ->
  1 <= Py.len (fin_DATE (fst (DS_FINANCE (data s)))) ->
  1 <= Py.len (CLOSE2 (data s)) ->
  1 <= Py.len (EPS (data s)) ->
  1 <= Py.len (EPSU (data s)) ->
  1 <= Py.len (ROE (data s)) ->
  build_basic_data E symbol s = (Ok tt, emit s (basic_lines E (data s) sn)).
Proof. intros. now apply (build_basic_data_run E symbol s sn others). Qed.

(** X3. When the symbol lookup answers and DATE, the reporting dates,
    CLOSE2, EPS, EPSU and ROE are not empty, the basic-facts section
    completes and prints exactly [basic_lines]: title, blank, symbol, name,
    the date that [fromtimestamp] gives for the last DATE entry divided by
    1e9 in binary64, the filtered sector labels joined by single spaces,
    the two ratio figures, the last ROE with two decimals, blank. *)
Theorem basic_section_text
  (E : externals) (symbol : string) (s : state)
  (sn : string * string) (others : list (string * string)) :
  symbol_with_name E [symbol] = sn :: others ->
  1 <= Py.len (DATE (data s)) ->
  1 <= Py.len (fin_DATE (fst (DS_FINANCE (data s)))) ->
  1 <= Py.len (CLOSE2 (data s)) ->
  1 <= Py.len (EPS (data s)) ->
  1 <= Py.len (EPSU (data s)) ->
  1 <= Py.len (ROE (data s)) ->
  build_basic_data E symbol s = (Ok tt, emit s (basic_lines E (data s) sn)).
Proof. intros. now apply (basic_section_run_helper E symbol s sn others). Qed.

(** X4. When the symbol lookup answers nothing, or one of DATE, the
    reporting dates, CLOSE2, EPS, EPSU, ROE is empty, the basic-facts
    section ends with IndexError. *)
Theorem basic_section_index_error (E : externals) (symbol : string) (s : state) :
  symbol_with_name E [symbol] = [] \/
  DATE (data s) = [] \/
  fin_DATE (fst (DS_FINANCE (data s))) = [] \/
  CLOSE2 (data s) = [] \/
  EPS (data s) = [] \/
  EPSU (data s) = [] \/
  ROE (data s) = [] ->
  fst (build_basic_data E symbol s) = Raise IndexError.
Proof.
  intros H.
  pose proof (build_basic_data_ok_nonempty E symbol s) as Hok.
  pose proof (build_basic_data_fails E symbol s) as Hf.
  destruct (fst (build_basic_data E symbol s)) as [[] | e].
  - exfalso. specialize (Hok eq_refl). tauto.
  - now rewrite (Hf e eq_refl).
Qed.

(** ** The trading-data section *)

(** X5. With the five series it reads all of length N >= 2, the trading-data
    section completes and prints exactly [trading_lines]: 17 lines and six
    more for every reported window. Today's amplitude compares the last
    high with the low before the last, today's change the last close with
    the close before it; a window's cumulative return compares the last
    close with the first close of the window. *)
Theorem trading_section_text (E : externals) (symbol : string) (s : state) (N : Z) :
  Py.len (CLOSE (data s)) = N ->
  Py.len (HIGH (data s)) = N ->
  Py.len (LOW (data s)) = N ->
  Py.len (VOLUME (data s)) = N ->
  Py.len (TCAP (data s)) = N ->
  2 <= N ->
  build_trading_data E symbol s = (Ok tt, emit s (trading_lines E (data s))) /\
  Py.len (trading_lines E (data s)) = 17 + 6 * Py.len (reported_windows N).
Proof.
  intros Hc Hh Hl Hv Ht HN. split.
  - now apply (build_trading_data_run E symbol s N).
  - unfold trading_lines. rewrite Hc.
    rewrite !len_app. unfold Py.len. cbn [List.length].
    assert (F : forall g : Z -> line,
              List.length (flat_map (fun w => [g w]) (reported_windows N))
              = List.length (reported_windows N)).
    { intros g. rewrite flat_map_singleton. apply length_map. }
    rewrite !F.
    assert (G : forall (g h : Z -> line) (ws : list Z),
              List.length (flat_map (fun w => [g w; h w]) ws)
              = (2 * List.length ws)%nat).
    { intros g h ws. induction ws as [| w ws IH]; [reflexivity |].
      cbn [flat_map app List.length]. rewrite IH. lia. }
    rewrite G. lia.
Qed.

(** Running never ends with an exception. *)
Definition never_fails {A} (m : M A) : Prop :=
  forall s, exists a, fst (m s) = Ok a.

Lemma never_fails_ret {A} (a : A) : never_fails (ret a).
Proof. intros s. now exists a. Qed.

Lemma never_fails_print l : never_fails (print l).
Proof. intros s. now exists tt. Qed.

Lemma never_fails_bind {A B} (m : M A) (f : A -> M B) :
  never_fails m -> (forall a, never_fails (f a)) -> never_fails (bind m f).
Proof.
  intros Hm Hf s. unfold bind. destruct (Hm s) as (a & Ha).
  destruct (m s) as [[a' | e] s1]; cbn in Ha; [apply Hf | discriminate].
Qed.

Lemma never_fails_bind_lift {A B} (a : A) (f : A -> M B) :
  never_fails (f a) -> never_fails (bind (lift (Ok a)) f).
Proof. intros H s. apply H. Qed.

Lemma never_fails_for_each {A} (xs : list A) (body : A -> M unit) :
  (forall x, In x xs -> never_fails (body x)) -> never_fails (for_each xs body).
Proof.
  induction xs as [| x xs IH]; intros Hb; cbn [for_each].
  - apply never_fails_ret.
  - apply never_fails_bind; [apply Hb; now left | intros _; apply IH].
    intros y Hy. apply Hb. now right.
Qed.

(** What a successful sequence tells about its first step. *)
Lemma bind_ok_inv {A B} (m : M A) (f : A -> M B) s b :
  fst (bind m f s) = Ok b ->
  exists a s', m s = (Ok a, s') /\ fst (f a s') = Ok b.
Proof.
  unfold bind. destruct (m s) as [[a | e] s1]; cbn; [eauto | discriminate].
Qed.

Lemma getitem_ok_len {A} (l : list A) (k : Z) x :
  0 < k -> Py.getitem l (- k) = Ok x -> k <= Py.len l.
Proof.
  intros Hk H. destruct (Z_le_gt_dec k (Py.len l)) as [Hle | Hgt]; [exact Hle |].
  rewrite getitem_short in H by lia. discriminate.
Qed.

Section TradingOutcome.
Variable E : externals.
Variable symbol : string.
Variable s : state.

Lemma build_trading_data_succeeds :
  2 <= Py.len (CLOSE (data s)) ->
  1 <= Py.len (HIGH (data s)) ->
  2 <= Py.len (LOW (data s)) ->
  1 <= Py.len (VOLUME (data s)) ->
  1 <= Py.len (TCAP (data s)) ->
  fst (build_trading_data E symbol s) = Ok tt.
Proof.
  intros Hc Hh Hl Hv Ht. unfold build_trading_data. rewrite !bind_read.
  rewrite !(getitem_last F64.nan), !(getitem_last2 F64.nan) by lia.
  match goal with |- fst (?m s) = _ => assert (NF : never_fails m) end.
  { repeat
      lazymatch goal with
      | |- never_fails (for_each _ _) =>
          apply never_fails_for_each; intros p Hp;
          apply filter_In in Hp; destruct Hp as [Hp Hle];
          apply Z.leb_le in Hle; apply canonical_periods_ge in Hp;
          rewrite ?amax_ok, ?amin_ok by (apply slice_from_nonempty; lia);
          rewrite ?(getitem_back F64.nan _ p) by lia
      | |- never_fails (bind (lift (Ok _)) _) => apply never_fails_bind_lift
      | |- never_fails (bind (print _) _) =>
          apply never_fails_bind; [apply never_fails_print | intros ?]
      | |- never_fails (bind (for_each _ _) _) =>
          apply never_fails_bind; [| intros ?]
      | |- never_fails (print _) => apply never_fails_print
      end. }
  destruct (NF s) as ([] & ->). reflexivity.
Qed.

Lemma build_trading_data_ok_lengths :
  fst (build_trading_data E symbol s) = Ok tt ->
  2 <= Py.len (CLOSE (data s)) /\
  1 <= Py.len (HIGH (data s)) /\
  2 <= Py.len (LOW (data s)) /\
  1 <= Py.len (VOLUME (data s)) /\
  1 <= Py.len (TCAP (data s)).
Proof.
  unfold build_trading_data. rewrite !bind_read. intros H.
  repeat
    (apply bind_ok_inv in H; destruct H as (? & ? & Hm & H);
     match type of Hm with
     | lift (Py.getitem ?l (-1)) _ = _ =>
         injection Hm as Hm _; apply (getitem_ok_len l 1) in Hm; [| lia];
         let F := fresh "Hlen" in rename Hm into F
     | lift (Py.getitem ?l (-2)) _ = _ =>
         injection Hm as Hm _; apply (getitem_ok_len l 2) in Hm; [| lia];
         let F := fresh "Hlen" in rename Hm into F
     | _ => clear Hm
     end).
  repeat split; assumption.
Qed.

End TradingOutcome.

(** X6. The trading-data section completes exactly when the close series has
    at least two observations, the low series at least two, and the high,
    volume and capitalisation series at least one; the series need not be
    equally long, because a window slice is clamped to the series. *)
Theorem trading_section_completes (E : externals) (symbol : string) (s : state) :
  fst (build_trading_data E symbol s) = Ok tt <->
  2 <= Py.len (CLOSE (data s)) /\
  1 <= Py.len (HIGH (data s)) /\
  2 <= Py.len (LOW (data s)) /\
  1 <= Py.len (VOLUME (data s)) /\
  1 <= Py.len (TCAP (data s)).
Proof.
  split.
  - apply build_trading_data_ok_lengths.
  - intros (Hc & Hh & Hl & Hv & Ht). now apply build_trading_data_succeeds.
Qed.

(** ** The technical-indicator section *)

Lemma nth_map_seq {A} (f : nat -> A) (n k : nat) (d : A) :
  (k < n)%nat -> nth k (map f (seq 0 n)) d = f k.
Proof.
  intros H. rewrite (nth_indep _ d (f 0%nat)) by (rewrite length_map, length_seq; lia).
  rewrite (map_nth f), seq_nth by lia. reflexivity.
Qed.

(** X7. With N close observations, N dates and indicator arrays as long as
    the close series, the technical-indicator section prints nothing when
    N < 30 and otherwise its title, a blank line, the table header, the
    separator, min(30, N - 1) data rows and a blank line; the k-th data row
    shows the k-th observation counted from the end. *)
Theorem technical_section_layout (E : externals) (symbol : string) (s : state) (N : Z) :
  Py.len (CLOSE (data s)) = N ->
  Py.len (DATE (data s)) = N ->
  full_length E (data s) ->
  build_technical_data E symbol s
  = (Ok tt, emit s (if N <? 30 then [] else technical_lines E (data s))) /\
  (30 <= N ->
     Py.len (shown_rows N) = Z.min 30 (N - 1) /\
     forall k, 0 <= k < Z.min 30 (N - 1) ->
               nth (Z.to_nat k) (shown_rows N) 0 = k + 1).
Proof.
  intros Hc Hd Hf. split.
  - destruct (N <? 30) eqn:HN.
    + rewrite emit_nil. apply (build_technical_data_skip E symbol s N Hc).
      now apply Z.ltb_lt.
    + apply (build_technical_data_run E symbol s N Hc Hd Hf). now apply Z.ltb_ge.
  - intros HN. split; [apply shown_rows_length; lia |].
    intros k Hk. unfold shown_rows.
    rewrite nth_map_seq by lia. lia.
Qed.

(** ** The fundamentals section *)

(** Every field array is at least as long as the reporting dates. *)
Definition fields_long (fin : finance) : Prop :=
  forall f, In f fields -> Py.len (fin_DATE fin) <= Py.len (snd (fst f) fin).

Lemma fields_long_cover E fin : fields_long fin -> fields_cover E fin (walked fin).
Proof.
  intros H i f Hi _ Hf. apply walked_bounds in Hi. specialize (H f Hf). lia.
Qed.

Lemma range_down_sorted start stop :
  StronglySorted Z.gt (Py.range start stop (-1)).
Proof.
  rewrite range_down. generalize (Z.to_nat (start - stop)) as n. intros n.
  assert (G : forall n k, StronglySorted Z.gt
                            (map (fun j => start - Z.of_nat j) (seq k n))).
  { clear n. induction n as [| n IH]; intros k; cbn; constructor; [apply IH |].
    apply Forall_forall. intros x Hx. apply in_map_iff in Hx.
    destruct Hx as (j & <- & Hj). apply in_seq in Hj. lia. }
  apply G.
Qed.

Lemma filter_sorted {A} (R : A -> A -> Prop) (f : A -> bool) (l : list A) :
  StronglySorted R l -> StronglySorted R (filter f l).
Proof.
  induction 1 as [| x l Hs IH Hx]; cbn; [constructor |].
  destruct (f x); [| exact IH]. constructor; [exact IH |].
  rewrite Forall_forall in *. intros y Hy. apply Hx. now apply filter_In in Hy.
Qed.

Lemma in_firstn {A} (n : nat) (l : list A) x : In x (firstn n l) -> In x l.
Proof.
  revert n. induction l as [| a l IH]; intros [| n]; cbn; try tauto.
  intros [-> | H]; [now left | right; eauto].
Qed.

Lemma firstn_sorted {A} (R : A -> A -> Prop) (n : nat) (l : list A) :
  StronglySorted R l -> StronglySorted R (firstn n l).
Proof.
  intros H. revert n. induction H as [| x l Hs IH Hx]; intros [| n]; cbn;
    try constructor; [apply IH |].
  rewrite Forall_forall in *. intros y Hy. apply Hx. eapply in_firstn; eauto.
Qed.

(** What [firstn] leaves out of a sorted list comes after all it keeps. *)
Lemma firstn_sorted_complete {A} (R : A -> A -> Prop) (n : nat) (l : list A) x :
  StronglySorted R l -> In x l ->
  In x (firstn n l) \/
  (List.length (firstn n l) = n /\ forall y, In y (firstn n l) -> R y x).
Proof.
  intros H. revert n. induction H as [| a l Hs IH Ha]; intros n Hx; [contradiction |].
  destruct n as [| n]; [right; split; [reflexivity | contradiction] |].
  cbn [firstn]. destruct Hx as [-> | Hx]; [left; now left |].
  destruct (IH n Hx) as [Hin | [Hlen Hall]]; [left; now right |].
  right. split; [cbn; now rewrite Hlen |].
  intros y [<- | Hy]; [| now apply Hall].
  rewrite Forall_forall in Ha. now apply Ha.
Qed.

(** X8. When every field array is at least as long as the reporting dates,
    the year columns of the fundamentals table are rows of December
    reporting dates at indices from 1 on, most recent first and at most
    five; a December date at an index from 1 on is left out only when five
    more recent ones fill the table. The date at index 0 is never a column. *)
Theorem financial_year_columns (E : externals) (symbol : string) (s : state) :
  let fin := fst (DS_FINANCE (data s)) in
  fields_long fin ->
  exists cols rest,
    snd (build_financial_data E symbol s)
    = emit s ([ [Text "# 财务数据"]; blank;
                header_line (map (row_at E fin) cols) ] ++ rest) /\
    Py.len cols <= 5 /\
    StronglySorted Z.gt cols /\
    (forall i, In i cols ->
               1 <= i < Py.len (fin_DATE fin) /\ year_end E fin i = true) /\
    (forall i, 1 <= i < Py.len (fin_DATE fin) -> year_end E fin i = true ->
               In i cols \/ (Py.len cols = 5 /\ forall j, In j cols -> j > i)).
Proof.
  intros fin Hlong.
  destruct (financial_columns E symbol s (fields_long_cover E fin Hlong)) as (rest & Hrun).
  exists (collected E fin), rest. split; [exact Hrun |].
  assert (Hs : StronglySorted Z.gt (filter (year_end E fin) (walked fin)))
    by apply filter_sorted, range_down_sorted.
  unfold collected. split; [| split; [| split]].
  - unfold Py.len. rewrite length_firstn. lia.
  - now apply firstn_sorted.
  - intros i H. apply in_firstn, filter_In in H. destruct H as [Hw Hd].
    split; [now apply walked_bounds | exact Hd].
  - intros i Hi Hd.
    assert (Hin : In i (filter (year_end E fin) (walked fin))).
    { apply filter_In. split; [| exact Hd]. unfold walked.
      rewrite range_down, in_map_iff. exists (Z.to_nat (Py.len (fin_DATE fin) - 1 - i)).
      split; [lia | apply in_seq; lia]. }
    destruct (firstn_sorted_complete Z.gt 5 _ i Hs Hin) as [H | [Hlen Hall]];
      [now left | right].
    split; [unfold Py.len; rewrite Hlen; reflexivity | exact Hall].
Qed.

(** The table line of the [i]-th metric, one cell per collected row. *)
Definition metric_line (rows : list fin_row) (i : Z) : line :=
  [Text "| "; Text (fst (fst (nth (Z.to_nat (i - 1)) fields (EmptyString, fin_MR, 1))));
   Text " | "]
  ++ join_pieces " "
       (map (fun x => [Num (Fixed 2) x; Text " |"])
          (map (fun r => nth (Z.to_nat (i - 1)) (row_values r) F64.nan) rows)).

Definition financial_lines (E : externals) (fin : finance) : list line :=
  let rows := map (row_at E fin) (collected E fin) in
  [ [Text "# 财务数据"]; blank; header_line rows;
    [Text (Py.repeat_string "| --- " (S (List.length rows)) ++ "|")%string] ]
  ++ map (metric_line rows) [1; 2; 3; 4; 5]
  ++ [ blank ].

Lemma financial_line_run (E : externals) (fin : finance) (idx : list Z) (i : Z) s :
  In i [1; 2; 3; 4; 5] ->
  financial_line (map (row_at E fin) idx) i s
  = (Ok tt, emit s [metric_line (map (row_at E fin) idx) i]).
Proof.
  intros Hi. unfold financial_line.
  assert (Hb : 0 <= i - 1 < 5) by (cbn in Hi; lia).
  rewrite (getitem_nonneg (EmptyString, fin_MR, 1) fields (i - 1)) by exact Hb.
  rewrite bind_lift_ok.
  rewrite (map_result_ok _ (fun r => nth (Z.to_nat (i - 1)) (row_values r) F64.nan)).
  - rewrite bind_lift_ok, print_run. reflexivity.
  - intros r Hr. apply in_map_iff in Hr. destruct Hr as (j & <- & _).
    unfold row_get. apply getitem_nonneg. exact Hb.
Qed.

Section FinancialText.
Variable E : externals.
Variable symbol : string.
Variable s : state.

Let fin : finance := fst (DS_FINANCE (data s)).

Lemma build_financial_data_run :
  fields_long fin ->
  collected E fin <> [] ->
  build_financial_data E symbol s = (Ok tt, emit s (financial_lines E fin)).
Proof.
  intros Hlong Hne. unfold build_financial_data.
  rewrite bind_read, !bind_print. fold fin. fold (walked fin).
  rewrite (bind_ok _ _ _ _ _ (walk_result E fin _ (fields_long_cover E fin Hlong))).
  cbn [fst]. rewrite !bind_print.
  destruct (collected E fin) as [| i0 idx] eqn:Hcol; [congruence |].
  change (Py.getitem (map (row_at E fin) (i0 :: idx)) 0) with (Ok (row_at E fin i0)).
  rewrite bind_lift_ok.
  change (Py.range 1 (row_len (row_at E fin i0)) 1) with [1; 2; 3; 4; 5].
  rewrite (bind_for_each_emit (fun i => [metric_line (map (row_at E fin) (i0 :: idx)) i])).
  2:{ intros i Hi s0. now apply financial_line_run. }
  rewrite print_run, !emit_emit, flat_map_singleton.
  unfold financial_lines. rewrite Hcol.
  f_equal; rewrite <- ?app_assoc; reflexivity.
Qed.

End FinancialText.

Lemma fundamentals_run_helper (E : externals) (symbol : string) (s : state) (i : Z) :
  let fin := fst (DS_FINANCE (data s)) in
  fields_long fin ->
  1 <= i < Py.len (fin_DATE fin) ->
  year_end E fin i = true ->
  build_financial_data E symbol s = (Ok tt, emit s (financial_lines E fin)).
Proof.
  intros fin Hlong Hi Hd. apply build_financial_data_run; [exact Hlong |].
  intros Hnil.
  assert (Hin : In i (filter (year_end E fin) (walked fin))).
  { apply filter_In. split; [| exact Hd]. unfold walked.
    rewrite range_down, in_map_iff. exists (Z.to_nat (Py.len (fin_DATE fin) - 1 - i)).
    split; [lia | apply in_seq; lia]. }
  unfold collected in Hnil. fold fin in Hnil.
  set (l := filter (year_end E fin) (walked fin)) in *.
  destruct l; [exact Hin | discriminate Hnil].
Qed.

(** X9. When every field array is at least as long as the reporting dates
    and some reporting date at an index from 1 on falls in December, the
    fundamentals section completes and prints its title, a blank line, the
    header of year columns, the separator, one line for each of the five
    metrics (revenue and net profit divided by 10000) and a blank line. *)
Theorem fundamentals_section_text (E : externals) (symbol : string) (s : state) (i : Z) :
  let fin := fst (DS_FINANCE (data s)) in
  fields_long fin ->
  1 <= i < Py.len (fin_DATE fin) ->
  year_end E fin i = true ->
  build_financial_data E symbol s = (Ok tt, emit s (financial_lines E fin)).
Proof. intros fin. now apply fundamentals_run_helper. Qed.

(** ** The whole report *)

(** The lines of a complete report, section after section. *)
Definition report_lines (E : externals) (b : bundle) (sn : string * string) : list line :=
  basic_lines E b sn
  ++ trading_lines E b
  ++ (if Py.len (CLOSE b) <? 30 then [] else technical_lines E b)
  ++ financial_lines E (fst (DS_FINANCE b)).

(** X10. When the lookup answers, the ten daily series all have N >= 2
    entries, the indicator arrays are as long as the close series, every
    fundamentals field is at least as long as the reporting dates and a
    reporting date at an index from 1 on falls in December, then
    [build_stock_data] returns the text of the basic, trading, technical
    (none when N < 30) and fundamentals lines, in this order, each line
    followed by a newline. *)
Theorem report_text
  (E : externals) (symbol : string) (b : bundle)
  (sn : string * string) (others : list (string * string)) (N i : Z) :
  symbol_with_name E [symbol] = sn :: others ->
  Py.len (DATE b) = N ->
  Py.len (CLOSE b) = N ->
  Py.len (CLOSE2 b) = N ->
  Py.len (HIGH b) = N ->
  Py.len (LOW b) = N ->
  Py.len (VOLUME b) = N ->
  Py.len (TCAP b) = N ->
  Py.len (EPS b) = N ->
  Py.len (EPSU b) = N ->
  Py.len (ROE b) = N ->
  2 <= N ->
  full_length E b ->
  fields_long (fst (DS_FINANCE b)) ->
  1 <= i < Py.len (fin_DATE (fst (DS_FINANCE b))) ->
  year_end E (fst (DS_FINANCE b)) i = true ->
  build_stock_data E symbol b
  = (Ok (render (report_lines E b sn)), {| fp := report_lines E b sn; data := b |}).
Proof.
  intros Hl Hdate Hclose Hclose2 Hhigh Hlow Hvol Htcap Heps Hepsu Hroe HN Hfull Hlong Hi Hy.
  unfold build_stock_data, build_sections.
  set (s0 := {| fp := []; data := b |}).
  assert (H1 : build_basic_data E symbol s0 = (Ok tt, emit s0 (basic_lines E b sn))).
  { apply (basic_section_run_helper E symbol s0 sn others); cbn [data s0]; lia || assumption. }
  set (s1 := emit s0 (basic_lines E b sn)).
  assert (H2 : build_trading_data E symbol s1 = (Ok tt, emit s1 (trading_lines E b))).
  { apply (build_trading_data_run E symbol s1 N); assumption. }
  set (s2 := emit s1 (trading_lines E b)).
  assert (H3 : build_technical_data E symbol s2
               = (Ok tt, emit s2 (if N <? 30 then [] else technical_lines E b))).
  { destruct (N <? 30) eqn:H30.
    - rewrite emit_nil. apply (build_technical_data_skip E symbol s2 N Hclose).
      now apply Z.ltb_lt.
    - apply (build_technical_data_run E symbol s2 N Hclose Hdate Hfull).
      now apply Z.ltb_ge. }
  set (s3 := emit s2 (if N <? 30 then [] else technical_lines E b)).
  assert (H4 : build_financial_data E symbol s3
               = (Ok tt, emit s3 (financial_lines E (fst (DS_FINANCE b))))).
  { apply (fundamentals_run_helper E symbol s3 i); assumption. }
  rewrite (bind_ok _ _ s0 tt (emit s3 (financial_lines E (fst (DS_FINANCE b))))).
  - unfold getvalue, report_lines. rewrite Hclose.
    subst s3 s2 s1. rewrite !emit_emit. reflexivity.
  - rewrite (bind_ok _ _ _ _ _ H1), (bind_ok _ _ _ _ _ H2), (bind_ok _ _ _ _ _ H3).
    exact H4.
Qed.


(** ** Runs of the further properties on the sample bundles *)

(** No observation at all. *)
Definition no_days : bundle :=
  Sample.bundle_of 0 2 [Sample.d_2022_12_31; Sample.d_2023_12_31].

(** The latest reporting date one nanosecond before 2024 begins in local
    time, after a report of June. *)
Definition edge_report : finance := {|
  fin_DATE := [Sample.day_ns Sample.d_2023_06_30; 1704038399999999999];
  fin_MR := Sample.flat 2 50000;
  fin_NP := Sample.flat 2 20000;
  fin_EPS := Sample.flat 2 2;
  fin_NAVPS := Sample.flat 2 5;
  fin_ROE := Sample.flat 2 12
|}.

Definition edge_bundle : bundle := {|
  DATE := DATE thirty_days;
  CLOSE := CLOSE thirty_days;
  CLOSE2 := CLOSE2 thirty_days;
  HIGH := HIGH thirty_days;
  LOW := LOW thirty_days;
  VOLUME := VOLUME thirty_days;
  TCAP := TCAP thirty_days;
  EPS := EPS thirty_days;
  EPSU := EPSU thirty_days;
  ROE := ROE thirty_days;
  SECTOR := SECTOR thirty_days;
  DS_FINANCE := (edge_report, tt)
|}.

(** The code reads that reporting date as a date of January: no row is
    collected and the fundamentals section ends with IndexError. *)
Lemma edge_report_not_a_year_end :
  month (report_date Sample.env edge_report 1) = 1 /\
  collected Sample.env edge_report = [] /\
  fst (build_financial_data Sample.env sample_symbol (start edge_bundle))
  = Raise IndexError.
Proof. vm_compute. repeat split; reflexivity. Qed.

Lemma thirty_days_full_length : full_length Sample.env thirty_days.
Proof. unfold full_length. vm_compute. repeat constructor. Qed.

Lemma thirty_days_fields_long : fields_long (fst (DS_FINANCE thirty_days)).
Proof.
  intros f Hf. cbn [fields In] in Hf.
  repeat (destruct Hf as [<- | Hf]; [vm_compute; discriminate |]).
  contradiction.
Qed.

Lemma basic_section_text_witness :
  build_basic_data Sample.env sample_symbol (start thirty_days)
  = (Ok tt, emit (start thirty_days)
              (basic_lines Sample.env thirty_days (sample_symbol, sample_symbol))).
Proof.
  assert (H1 : 1 <= Py.len (DATE (data (start thirty_days))))
    by (vm_compute; discriminate).
  assert (H2 : 1 <= Py.len (fin_DATE (fst (DS_FINANCE (data (start thirty_days))))))
    by (vm_compute; discriminate).
  assert (H3 : 1 <= Py.len (CLOSE2 (data (start thirty_days))))
    by (vm_compute; discriminate).
  exact (basic_section_text Sample.env sample_symbol (start thirty_days)
           (sample_symbol, sample_symbol) [] eq_refl H1 H2 H3 H3 H3 H3).
Defined.

Lemma basic_section_index_error_witness :
  fst (build_basic_data Sample.env sample_symbol (start no_days)) = Raise IndexError.
Proof.
  apply (basic_section_index_error Sample.env sample_symbol (start no_days)).
  right; left. reflexivity.
Defined.

Lemma trading_section_text_witness :
  build_trading_data Sample.env sample_symbol (start thirty_days)
  = (Ok tt, emit (start thirty_days) (trading_lines Sample.env thirty_days)) /\
  Py.len (trading_lines Sample.env thirty_days) = 17 + 6 * Py.len (reported_windows 30).
Proof.
  apply (trading_section_text Sample.env sample_symbol (start thirty_days) 30);
    first [reflexivity | lia].
Defined.

Lemma technical_section_layout_witness :
  build_technical_data Sample.env sample_symbol (start thirty_days)
  = (Ok tt, emit (start thirty_days) (technical_lines Sample.env thirty_days)) /\
  Py.len (shown_rows 30) = 29.
Proof.
  destruct (technical_section_layout Sample.env sample_symbol (start thirty_days) 30
              eq_refl eq_refl thirty_days_full_length) as [Hrun Hrows].
  split; [exact Hrun |]. apply Hrows. lia.
Defined.

Lemma financial_year_columns_witness :
  exists cols rest,
    snd (build_financial_data Sample.env sample_symbol (start thirty_days))
    = emit (start thirty_days)
        ([ [Text "# 财务数据"]; blank;
           header_line (map (row_at Sample.env (fst (DS_FINANCE thirty_days))) cols) ]
         ++ rest) /\
    Py.len cols <= 5.
Proof.
  destruct (financial_year_columns Sample.env sample_symbol (start thirty_days)
              thirty_days_fields_long) as (cols & rest & Hrun & Hlen & _).
  exists cols, rest. split; [exact Hrun | exact Hlen].
Defined.

Lemma fundamentals_section_text_witness :
  build_financial_data Sample.env sample_symbol (start thirty_days)
  = (Ok tt, emit (start thirty_days)
              (financial_lines Sample.env (fst (DS_FINANCE thirty_days)))).
Proof.
  assert (Hi : 1 <= 2 < Py.len (fin_DATE (fst (DS_FINANCE (data (start thirty_days))))))
    by (vm_compute; split; [discriminate | reflexivity]).
  exact (fundamentals_section_text Sample.env sample_symbol (start thirty_days) 2
           thirty_days_fields_long Hi eq_refl).
Defined.

Lemma report_text_witness :
  build_stock_data Sample.env sample_symbol thirty_days
  = (Ok (render (report_lines Sample.env thirty_days (sample_symbol, sample_symbol))),
     {| fp := report_lines Sample.env thirty_days (sample_symbol, sample_symbol);
        data := thirty_days |}).
Proof.
  assert (Hi : 1 <= 2 < Py.len (fin_DATE (fst (DS_FINANCE thirty_days))))
    by (vm_compute; split; [discriminate | reflexivity]).
  assert (HN : 2 <= 30) by lia.
  exact (report_text Sample.env sample_symbol thirty_days
           (sample_symbol, sample_symbol) [] 30 2
           eq_refl eq_refl eq_refl eq_refl eq_refl eq_refl eq_refl eq_refl eq_refl
           eq_refl eq_refl HN thirty_days_full_length thirty_days_fields_long Hi eq_refl).
Defined.

